(** * ZenExtension: the activation and orchestration singleton

    A shallow embedding of [src/services/ZenExtension.ts].

    The class is glue code: every function reads or writes a handful of
    static fields and calls collaborators that live outside the file (the
    editor API, the Python extension, the language-server launcher, the
    command registries).  The embedding therefore has three layers:

    - the data the class owns (its static fields, the flag it writes on the
      shared [LSClient] object, the command table it fills);
    - the collaborators, as a class [Collaborators]: an abstract host state
      and a function [respond] that answers each call, either by returning a
      value or by throwing, and moves the host state;
    - the functions of the class, written in a state-and-exception monad
      [Eff] over the two, which records every call and its reply in a trace.

    Asynchronous functions are run to completion one at a time: an awaited
    call is a call whose rejection is thrown at the call site.  While a
    function of the class runs, collaborators change the host state only;
    the static fields of [ZenExtension] and
    [lsClient.interpreterSelectionInProgress] are written by this file
    alone.  [lsClient.isZenMLReady] is never written here, so it is read off
    the host state. *)

From Stdlib Require Import Ascii String List Bool Arith Lia.
From stdpp Require Import base option list strings gmap.

Local Open Scope string_scope.
Local Open Scope list_scope.

(** ** Values exchanged with the host *)

(** A thrown JavaScript value. *)
Inductive Error : Type :=
| JsError (message : string).

(** How a call ends: with a value, or with an exception (a rejected promise
    for an awaited call). *)
Inductive Outcome (A : Type) : Type :=
| Returned (value : A)
| Threw (reason : Error).

Arguments Returned {A} value.
Arguments Threw {A} reason.

(** Host objects are known by identity only. *)
Inductive Disposable : Type :=
| Handle (id : nat).

Inductive LogOutputChannel : Type :=
| OutputChannel (id : nat).

Inductive LSClient : Type :=
| LanguageClient (id : nat).

Inductive ExtensionContext : Type :=
| ContextHandle (id : nat).


(** [IInterpreterDetails]: the only member read here is the optional
    [path] array. *)
Record IInterpreterDetails : Type := {
  path : option (list string)
}.

(** [vscode.ConfigurationChangeEvent]. *)
Record ConfigurationChangeEvent : Type := {
  affectsConfiguration : string -> bool
}.

(** The singletons stored in [dataProviders]. *)
Inductive TreeDataProvider : Type :=
| ServerDataProvider
| StackDataProvider
| PipelineDataProvider
| EnvironmentDataProvider.

(** The functions stored in [registries]. *)
Inductive Registry : Type :=
| registerServerCommands
| registerStackCommands
| registerPipelineCommands.

(** The closures that [subscribeToCoreEvents] hands to the host. *)
Inductive EventListener : Type :=
| InterpreterListener
| ConfigurationListener.

Inductive CommandHandler : Type :=
| ShowLogsHandler
| RestartHandler
| PromptForInterpreterHandler.

(** The closure that [deferredInitialize] hands to [setImmediate]. *)
Inductive Immediate : Type :=
| DeferredInitialization.

(** ** Calls to collaborators, indexed by the type of their result *)

Inductive HostCall : Type -> Type :=
| TraceLog (message : string) : HostCall unit
| GetInterpreterDetails : HostCall IInterpreterDetails
| InitializePython (disposables : list Disposable) : HostCall unit
| UpdateDefaultPythonInterpreterPath (pythonPath : option string) : HostCall unit
| UpdateWorkspaceInterpreterSettings (pythonPath : option string) : HostCall unit
| RunServer (serverId serverName : string) (outputChannel : LogOutputChannel)
    (lsClient : LSClient) : HostCall unit
| StatusBarGetInstance : HostCall unit
| CreateTreeView (viewId : string) (treeDataProvider : TreeDataProvider) :
    HostCall Disposable
| RegisterCommands (register : Registry) (context : ExtensionContext) :
    HostCall unit
| RefreshUIComponents : HostCall unit
| OnDidChangePythonInterpreter (listener : EventListener) : HostCall Disposable
| OnDidChangeConfiguration (listener : EventListener) : HostCall Disposable
| RegisterCommand (command : string) (callback : CommandHandler) :
    HostCall Disposable
| RegisterLanguageStatusItem (id name command : string) : HostCall Disposable
| OutputChannelShow (channel : LogOutputChannel) : HostCall unit
| ShowInformationMessage (message : string) (items : list string) :
    HostCall (option string)
| ExecuteCommand (command : string) : HostCall unit
| Dispose (disposable : Disposable) : HostCall unit.

(** What an observer of the extension sees: console lines, and calls with
    their replies. *)
Inductive Action : Type :=
| Logged (message : string) (extra : option ConfigurationChangeEvent)
| Did {T : Type} (call : HostCall T) (reply : Outcome T).

(** ** The collaborators *)

Class Collaborators : Type := {
  Host : Type;
  (** [lsClient.isZenMLReady], maintained by the language client. *)
  isZenMLReady : Host -> bool;
  (** The reply to a call and the host state after it. *)
  respond : forall T : Type, HostCall T -> Host -> Outcome T * Host;
  (** [checkIfConfigurationChanged] of [common/settings]. *)
  checkIfConfigurationChanged : ConfigurationChangeEvent -> string -> bool
}.

Arguments respond {_} {T} _ _.

(** ** The static fields of the class *)

Record ZenExtension : Type := {
  context : ExtensionContext;
  commandDisposables : list Disposable;
  viewDisposables : list Disposable;
  lsClient : LSClient;
  outputChannel : LogOutputChannel;
  serverId : string;
  serverName : string;
  viewsAndCommandsSetup : bool
}.

Definition dataProviders : list (string * TreeDataProvider) :=
  [ ("zenmlServerView", ServerDataProvider);
    ("zenmlStackView", StackDataProvider);
    ("zenmlPipelineView", PipelineDataProvider);
    ("zenmlEnvironmentView", EnvironmentDataProvider) ].

Definition registries : list Registry :=
  [ registerServerCommands; registerStackCommands; registerPipelineCommands ].

Section Extension.

Context {collaborators : Collaborators}.

(** Everything a run of the extension can touch. *)
Record World : Type := {
  zen : ZenExtension;
  (** the field of the [LSClient] object that [zen.lsClient] refers to *)
  interpreterSelectionInProgress : bool;
  (** [context.subscriptions] *)
  subscriptions : list Disposable;
  (** the commands this extension has registered with the editor *)
  commands : gmap string CommandHandler;
  (** callbacks queued with [setImmediate] *)
  immediates : list Immediate;
  host : Host;
  trace : list Action
}.

Definition withZen (z : ZenExtension) (w : World) : World :=
  {| zen := z;
     interpreterSelectionInProgress := interpreterSelectionInProgress w;
     subscriptions := subscriptions w; commands := commands w;
     immediates := immediates w; host := host w; trace := trace w |}.

Definition withInterpreterSelectionInProgress (b : bool) (w : World) : World :=
  {| zen := zen w; interpreterSelectionInProgress := b;
     subscriptions := subscriptions w; commands := commands w;
     immediates := immediates w; host := host w; trace := trace w |}.

Definition withSubscriptions (s : list Disposable) (w : World) : World :=
  {| zen := zen w;
     interpreterSelectionInProgress := interpreterSelectionInProgress w;
     subscriptions := s; commands := commands w;
     immediates := immediates w; host := host w; trace := trace w |}.

Definition withCommands (c : gmap string CommandHandler) (w : World) : World :=
  {| zen := zen w;
     interpreterSelectionInProgress := interpreterSelectionInProgress w;
     subscriptions := subscriptions w; commands := c;
     immediates := immediates w; host := host w; trace := trace w |}.

Definition withImmediates (q : list Immediate) (w : World) : World :=
  {| zen := zen w;
     interpreterSelectionInProgress := interpreterSelectionInProgress w;
     subscriptions := subscriptions w; commands := commands w;
     immediates := q; host := host w; trace := trace w |}.

(** The host moved to [h] while the extension observed [acts]. *)
Definition advance (h : Host) (acts : list Action) (w : World) : World :=
  {| zen := zen w;
     interpreterSelectionInProgress := interpreterSelectionInProgress w;
     subscriptions := subscriptions w; commands := commands w;
     immediates := immediates w; host := h; trace := trace w ++ acts |}.

(** ** The monad of extension code *)

Definition Eff (A : Type) : Type := World -> Outcome A * World.

Definition ret {A : Type} (a : A) : Eff A := fun w => (Returned a, w).

Definition bind {A B : Type} (m : Eff A) (k : A -> Eff B) : Eff B :=
  fun w =>
    match m w with
    | (Returned a, w') => k a w'
    | (Threw e, w') => (Threw e, w')
    end.

Declare Scope eff_scope.
Delimit Scope eff_scope with eff.
Bind Scope eff_scope with Eff.

Notation "x <- m ;; k" := (bind m (fun x => k))
  (at level 100, m at next level, right associativity) : eff_scope.
Notation "m ;; k" := (bind m (fun _ => k))
  (at level 100, right associativity) : eff_scope.

Local Open Scope eff_scope.

Definition gets {A : Type} (f : World -> A) : Eff A :=
  fun w => (Returned (f w), w).

Definition modify (f : World -> World) : Eff unit :=
  fun w => (Returned tt, f w).

(** [console.log]: a line on the console; it cannot fail. *)
Definition consoleLog (message : string)
    (extra : option ConfigurationChangeEvent) : Eff unit :=
  modify (fun w => advance (host w) [Logged message extra] w).

(** A synchronous call, or an awaited asynchronous one. *)
Definition call {T : Type} (c : HostCall T) : Eff T :=
  fun w =>
    let (reply, h) := respond c (host w) in
    (reply, advance h [Did c reply] w).

(** An asynchronous call whose promise is dropped: the caller goes on
    whatever becomes of it. *)
Definition spawn {T : Type} (c : HostCall T) : Eff unit :=
  fun w =>
    let (reply, h) := respond c (host w) in
    (Returned tt, advance h [Did c reply] w).

(** [try { body } finally { cleanup }]: the cleanup runs on both exits; an
    exception of the cleanup replaces the outcome of the body. *)
Definition tryFinally {A : Type} (body : Eff A)
    (cleanup : Outcome A -> Eff unit) : Eff A :=
  fun w =>
    let (r, w1) := body w in
    match cleanup r w1 with
    | (Returned _, w2) => (r, w2)
    | (Threw e, w2) => (Threw e, w2)
    end.

(** [array.forEach(f)] *)
Fixpoint forEach {A : Type} (f : A -> Eff unit) (l : list A) : Eff unit :=
  match l with
  | [] => ret tt
  | x :: rest => f x ;; forEach f rest
  end.

(** ** Field access *)

Definition pushViewDisposable (view : Disposable) : Eff unit :=
  modify (fun w =>
    let z := zen w in
    withZen {| context := context z;
               commandDisposables := commandDisposables z;
               viewDisposables := viewDisposables z ++ [view];
               lsClient := lsClient z; outputChannel := outputChannel z;
               serverId := serverId z; serverName := serverName z;
               viewsAndCommandsSetup := viewsAndCommandsSetup z |} w).

Definition setViewDisposables (ds : list Disposable) : Eff unit :=
  modify (fun w =>
    let z := zen w in
    withZen {| context := context z;
               commandDisposables := commandDisposables z;
               viewDisposables := ds;
               lsClient := lsClient z; outputChannel := outputChannel z;
               serverId := serverId z; serverName := serverName z;
               viewsAndCommandsSetup := viewsAndCommandsSetup z |} w).

Definition setCommandDisposables (ds : list Disposable) : Eff unit :=
  modify (fun w =>
    let z := zen w in
    withZen {| context := context z;
               commandDisposables := ds;
               viewDisposables := viewDisposables z;
               lsClient := lsClient z; outputChannel := outputChannel z;
               serverId := serverId z; serverName := serverName z;
               viewsAndCommandsSetup := viewsAndCommandsSetup z |} w).

Definition setViewsAndCommandsSetup (b : bool) : Eff unit :=
  modify (fun w =>
    let z := zen w in
    withZen {| context := context z;
               commandDisposables := commandDisposables z;
               viewDisposables := viewDisposables z;
               lsClient := lsClient z; outputChannel := outputChannel z;
               serverId := serverId z; serverName := serverName z;
               viewsAndCommandsSetup := b |} w).

Definition setInterpreterSelectionInProgress (b : bool) : Eff unit :=
  modify (withInterpreterSelectionInProgress b).

(** ** Host services with a visible effect on the world *)

(** [setImmediate(callback)]: the callback is queued, nothing runs yet. *)
Definition setImmediate (callback : Immediate) : Eff unit :=
  modify (fun w => withImmediates (immediates w ++ [callback]) w).

(** [registerCommand(command, callback)]: when the editor accepts the
    registration, the command table maps the name to the callback. *)
Definition registerCommand (command : string) (callback : CommandHandler) :
    Eff Disposable :=
  d <- call (RegisterCommand command callback) ;;
  modify (fun w => withCommands (<[command := callback]> (commands w)) w) ;;
  ret d.

(** ** The functions of the class *)

(** [runServer(this.serverId, this.serverName, this.outputChannel,
    this.lsClient)] *)
Definition runServer : Eff unit :=
  z <- gets zen ;;
  call (RunServer (serverId z) (serverName z) (outputChannel z) (lsClient z)).

(** [updateGlobalSettings(pythonPath)]; the argument is [None] when the
    caller passes [path[0]] of an empty array. *)
Definition updateGlobalSettings (pythonPath : option string) : Eff unit :=
  call (UpdateDefaultPythonInterpreterPath pythonPath) ;;
  call (UpdateWorkspaceInterpreterSettings pythonPath).

(** The callback of [deferredInitialize].  An array, even an empty one, is
    truthy, so the first branch is taken whenever [path] is present. *)
Definition deferredInitialization : Eff unit :=
  interpreterDetails <- call GetInterpreterDetails ;;
  match path interpreterDetails with
  | Some p => updateGlobalSettings (head p)
  | None =>
      call (TraceLog "Setting up Python extension listener.") ;;
      subs <- gets subscriptions ;;
      call (InitializePython subs)
  end ;;
  runServer.

Definition deferredInitialize : Eff unit :=
  setImmediate DeferredInitialization.

Definition setupViewsAndCommands : Eff unit :=
  alreadySetUp <- gets (fun w => viewsAndCommandsSetup (zen w)) ;;
  if alreadySetUp : bool then
    consoleLog "Views and commands have already been set up. Refreshing views..." None ;;
    call RefreshUIComponents
  else
    call StatusBarGetInstance ;;
    forEach (fun entry : string * TreeDataProvider =>
               view <- call (CreateTreeView (fst entry) (snd entry)) ;;
               pushViewDisposable view)
            dataProviders ;;
    forEach (fun register : Registry =>
               ctx <- gets (fun w => context (zen w)) ;;
               call (RegisterCommands register ctx))
            registries ;;
    call RefreshUIComponents ;;
    setViewsAndCommandsSetup true.

(** The listener given to [onDidChangePythonInterpreter]. *)
Definition onInterpreterChanged (interpreterDetails : IInterpreterDetails) :
    Eff unit :=
  match path interpreterDetails with
  | Some p =>
      consoleLog "Interpreter changed, restarting LSP server..." None ;;
      updateGlobalSettings (head p) ;;
      runServer
  | None => ret tt
  end.

(** The callback of the [showLogs] command. *)
Definition showLogs : Eff unit :=
  channel <- gets (fun w => outputChannel (zen w)) ;;
  call (OutputChannelShow channel).

(** The listener given to [onDidChangeConfiguration]. *)
Definition onConfigurationChanged (e : ConfigurationChangeEvent) : Eff unit :=
  sid <- gets (fun w => serverId (zen w)) ;;
  if checkIfConfigurationChanged e sid then
    consoleLog "Configuration changed, restarting LSP server..." (Some e) ;;
    runServer
  else ret tt.

(** The callback of the [restart] command. *)
Definition restart : Eff unit := runServer.

Definition promptQuestion : string :=
  "ZenML not found with the current Python interpreter. Would you like to select a different interpreter?".

Definition promptItems : list string := ["Select Interpreter"; "Cancel"].

(** The [try] block of [promptForPythonInterpreter]; its value is the local
    [userCancelled] at the end of the block. *)
Definition promptForPythonInterpreter_try : Eff bool :=
  selected <- call (ShowInformationMessage promptQuestion promptItems) ;;
  if decide (selected = Some "Select Interpreter") then
    call (ExecuteCommand "python.setInterpreter") ;;
    consoleLog "Interpreter selection completed." None ;;
    sid <- gets (fun w => serverId (zen w)) ;;
    call (ExecuteCommand (sid +:+ ".restart")) ;;
    ret false
  else
    consoleLog "Interpreter selection cancelled." None ;;
    ret true.

(** The [finally] block.  [userCancelled] is assigned once, in the [else]
    branch of the [try] block and before a [console.log] only, so it still
    holds its initial [false] whenever the block throws. *)
Definition promptForPythonInterpreter_finally (attempt : Outcome bool) :
    Eff unit :=
  let userCancelled :=
    match attempt with Returned c => c | Threw _ => false end in
  setInterpreterSelectionInProgress false ;;
  ready <- gets (fun w => isZenMLReady (host w)) ;;
  if negb ready && negb userCancelled then
    consoleLog "ZenML is still not installed. Prompting again..." None
  else
    readyNow <- gets (fun w => isZenMLReady (host w)) ;;
    if readyNow : bool then
      spawn (ShowInformationMessage
               "🚀 ZenML installation found. Ready to use." [])
    else
      spawn (ShowInformationMessage
               "Interpreter selection cancelled. ZenML features will be disabled." []).

Definition promptForPythonInterpreter : Eff unit :=
  ready <- gets (fun w => isZenMLReady (host w)) ;;
  if ready : bool then
    consoleLog "ZenML is already installed, no need to prompt for interpreter." None
  else
    setInterpreterSelectionInProgress true ;;
    tryFinally promptForPythonInterpreter_try
               promptForPythonInterpreter_finally ;;
    ret tt.

(** The callback of the [zenml.promptForInterpreter] command. *)
Definition promptForInterpreterCommand : Eff unit :=
  inProgress <- gets interpreterSelectionInProgress ;;
  ready <- gets (fun w => isZenMLReady (host w)) ;;
  if negb inProgress && negb ready then promptForPythonInterpreter
  else ret tt.

Definition subscribeToCoreEvents : Eff unit :=
  d1 <- call (OnDidChangePythonInterpreter InterpreterListener) ;;
  sid2 <- gets (fun w => serverId (zen w)) ;;
  d2 <- registerCommand (sid2 +:+ ".showLogs") ShowLogsHandler ;;
  d3 <- call (OnDidChangeConfiguration ConfigurationListener) ;;
  sid4 <- gets (fun w => serverId (zen w)) ;;
  d4 <- registerCommand (sid4 +:+ ".restart") RestartHandler ;;
  d5 <- registerCommand "zenml.promptForInterpreter" PromptForInterpreterHandler ;;
  z <- gets zen ;;
  d6 <- call (RegisterLanguageStatusItem (serverId z) (serverName z)
                (serverId z +:+ ".showLogs")) ;;
  modify (fun w =>
    withSubscriptions (subscriptions w ++ [d1; d2; d3; d4; d5; d6]) w).

Definition deactivateFeatures : Eff unit :=
  cmds <- gets (fun w => commandDisposables (zen w)) ;;
  forEach (fun disposable => call (Dispose disposable)) cmds ;;
  setCommandDisposables [] ;;
  views <- gets (fun w => viewDisposables (zen w)) ;;
  forEach (fun disposable => call (Dispose disposable)) views ;;
  setViewDisposables [] ;;
  consoleLog "Features deactivated due to unmet requirements." None.

(** ** The editor calling back *)

(** The events this extension listens to. *)
Inductive EditorEvent : Type :=
| PythonInterpreterChanged (interpreterDetails : IInterpreterDetails)
| ConfigurationChanged (e : ConfigurationChangeEvent).

(** The listener [subscribeToCoreEvents] registers for each event, run on
    the event. *)
Definition handleEvent (ev : EditorEvent) : Eff unit :=
  match ev with
  | PythonInterpreterChanged interpreterDetails =>
      onInterpreterChanged interpreterDetails
  | ConfigurationChanged e => onConfigurationChanged e
  end.

Definition runHandler (h : CommandHandler) : Eff unit :=
  match h with
  | ShowLogsHandler => showLogs
  | RestartHandler => restart
  | PromptForInterpreterHandler => promptForInterpreterCommand
  end.

(** The editor runs a command of this extension by looking its name up in
    the command table. *)
Definition runCommand (command : string) : Eff unit :=
  fun w =>
    match commands w !! command with
    | Some h => runHandler h w
    | None => (Threw (JsError ("command '" +:+ command +:+ "' not found")), w)
    end.

(** The editor runs a queued callback. *)
Definition runImmediate (callback : Immediate) : Eff unit :=
  match callback with
  | DeferredInitialization => deferredInitialization
  end.

End Extension.

(** ** Command names *)

(** The last character of a string; command names are told apart by it. *)
Fixpoint lastChar (s : string) : option ascii :=
  match s with
  | EmptyString => None
  | String a EmptyString => Some a
  | String _ rest => lastChar rest
  end.

(** ** Actions performed by a run *)

(** What [m] adds to the trace when run from [w]. *)
Definition performed `{Collaborators} {A : Type} (m : Eff A) (w : World) :
    list Action :=
  drop (length (trace w)) (trace (snd (m w))).

Definition isRunServer (a : Action) : bool :=
  match a with
  | Did c _ =>
      match c with
      | RunServer _ _ _ _ => true
      | _ => false
      end
  | Logged _ _ => false
  end.

Definition isLogged (a : Action) : bool :=
  match a with
  | Logged _ _ => true
  | Did _ _ => false
  end.

Definition isSettingsUpdate (a : Action) : bool :=
  match a with
  | Did c _ =>
      match c with
      | UpdateDefaultPythonInterpreterPath _ => true
      | UpdateWorkspaceInterpreterSettings _ => true
      | _ => false
      end
  | Logged _ _ => false
  end.


(** The name passed to [executeCommand]. *)
Definition executed (a : Action) : option string :=
  match a with
  | Did c _ =>
      match c with
      | ExecuteCommand name => Some name
      | _ => None
      end
  | Logged _ _ => None
  end.

(** The interpreter question of [promptForPythonInterpreter]. *)
Definition isPromptDialog (a : Action) : bool :=
  match a with
  | Did c _ =>
      match c with
      | ShowInformationMessage message _ =>
          bool_decide (message = promptQuestion)
      | _ => false
      end
  | Logged _ _ => false
  end.

(** Calls made one after the other: each is made once the one before it
    has returned, and the first that throws ends the run. *)
Fixpoint chain (steps : list (HostCall unit * Outcome unit)) : list Action :=
  match steps with
  | [] => []
  | (c, r) :: rest =>
      Did c r :: match r with Returned _ => chain rest | Threw _ => [] end
  end.

Fixpoint chainOutcome (steps : list (HostCall unit * Outcome unit)) :
    Outcome unit :=
  match steps with
  | [] => Returned tt
  | (_, r) :: rest =>
      match r with Returned _ => chainOutcome rest | Threw e => Threw e end
  end.

(** The parts of the world that belong to the extension. *)
Definition sameExtension `{Collaborators} (w w' : World) : Prop :=
  zen w' = zen w /\
  interpreterSelectionInProgress w' = interpreterSelectionInProgress w /\
  subscriptions w' = subscriptions w /\
  commands w' = commands w /\
  immediates w' = immediates w.

(** ** A concrete host, for examples *)

Record Desk : Type := {
  zenmlInstalled : bool;
  nextHandle : nat
}.

(** A host that answers [getInterpreterDetails] with [details] and every
    dialog with [answer], hands out fresh handles, and throws on the calls
    selected by [faulty]. *)
Definition deskReply (details : IInterpreterDetails) (answer : option string)
    (T : Type) (c : HostCall T) (h : Desk) : Outcome T * Desk :=
  let fresh : Outcome Disposable * Desk :=
    (Returned (Handle (nextHandle h)),
     {| zenmlInstalled := zenmlInstalled h; nextHandle := S (nextHandle h) |}) in
  match c in HostCall T return Outcome T * Desk with
  | TraceLog _ => (Returned tt, h)
  | GetInterpreterDetails => (Returned details, h)
  | InitializePython _ => (Returned tt, h)
  | UpdateDefaultPythonInterpreterPath _ => (Returned tt, h)
  | UpdateWorkspaceInterpreterSettings _ => (Returned tt, h)
  | RunServer _ _ _ _ => (Returned tt, h)
  | StatusBarGetInstance => (Returned tt, h)
  | CreateTreeView _ _ => fresh
  | RegisterCommands _ _ => (Returned tt, h)
  | RefreshUIComponents => (Returned tt, h)
  | OnDidChangePythonInterpreter _ => fresh
  | OnDidChangeConfiguration _ => fresh
  | RegisterCommand _ _ => fresh
  | RegisterLanguageStatusItem _ _ _ => fresh
  | OutputChannelShow _ => (Returned tt, h)
  | ShowInformationMessage _ _ => (Returned answer, h)
  | ExecuteCommand _ => (Returned tt, h)
  | Dispose _ => (Returned tt, h)
  end.

Definition desk (details : IInterpreterDetails) (answer : option string)
    (faulty : forall T : Type, HostCall T -> bool) : Collaborators :=
  {| Host := Desk;
     isZenMLReady := zenmlInstalled;
     respond := fun T c h =>
       if faulty T c then (Threw (JsError "rejected"), h)
       else deskReply details answer T c h;
     checkIfConfigurationChanged := fun e sid => affectsConfiguration e sid |}.

Definition reliable (T : Type) (c : HostCall T) : bool := false.

Definition settingsReadOnly (T : Type) (c : HostCall T) : bool :=
  match c with
  | UpdateDefaultPythonInterpreterPath _ => true
  | _ => false
  end.

Definition pythonExtensionMissing (T : Type) (c : HostCall T) : bool :=
  match c with
  | InitializePython _ => true
  | _ => false
  end.

Definition commandsFail (T : Type) (c : HostCall T) : bool :=
  match c with
  | ExecuteCommand _ => true
  | _ => false
  end.

Definition zenml : ZenExtension :=
  {| context := ContextHandle 0;
     commandDisposables := [];
     viewDisposables := [];
     lsClient := LanguageClient 0;
     outputChannel := OutputChannel 0;
     serverId := "zenml-python";
     serverName := "ZenML";
     viewsAndCommandsSetup := false |}.

(** The world right after the fields of [zenml] are set, with ZenML
    [installed] or not on the host side. *)
Definition fresh (C : Collaborators) (h : @Host C) : @World C :=
  {| zen := zenml;
     interpreterSelectionInProgress := false;
     subscriptions := [];
     commands := ∅;
     immediates := [];
     host := h;
     trace := [] |}.

Definition atDesk (installed : bool) : Desk :=
  {| zenmlInstalled := installed; nextHandle := 10 |}.

Definition python3 : IInterpreterDetails :=
  {| path := Some ["/usr/bin/python3"] |}.

Definition noInterpreter : IInterpreterDetails := {| path := None |}.

(** A host on which every call returns. *)
Definition office : Collaborators :=
  desk python3 (Some "Select Interpreter") reliable.

(** A host whose user settings cannot be written. *)
Definition lockedOffice : Collaborators :=
  desk python3 (Some "Select Interpreter") settingsReadOnly.

(** A host without interpreter details on which [initializePython] fails. *)
Definition bareOffice : Collaborators :=
  desk noInterpreter None pythonExtensionMissing.

(** A host on which no command can be executed. *)
Definition brokenOffice : Collaborators :=
  desk python3 (Some "Select Interpreter") commandsFail.

(** The extension after [subscribeToCoreEvents]. *)
Definition subscribed : @World office :=
  snd (subscribeToCoreEvents (fresh office (atDesk false))).

(** The extension after a first [setupViewsAndCommands]. *)
Definition setUp : @World office :=
  snd (setupViewsAndCommands (fresh office (atDesk true))).



(** Two commands and one view to dispose of. *)
Definition loaded : @World office :=
  withZen {| context := ContextHandle 0;
             commandDisposables := [Handle 1; Handle 2];
             viewDisposables := [Handle 3];
             lsClient := LanguageClient 0;
             outputChannel := OutputChannel 0;
             serverId := "zenml-python";
             serverName := "ZenML";
             viewsAndCommandsSetup := true |}
          (fresh office (atDesk true)).

(** ** Reasoning about runs *)

(** ** More observations on runs *)

Definition isReturned {A : Type} (o : Outcome A) : bool :=
  match o with
  | Returned _ => true
  | Threw _ => false
  end.

(** The view handed back by a [createTreeView] call. *)
Definition createdView (a : Action) : option Disposable :=
  match a with
  | Did c r =>
      match c in HostCall T return Outcome T -> option Disposable with
      | CreateTreeView _ _ =>
          fun r => match r with Returned v => Some v | Threw _ => None end
      | _ => fun _ => None
      end r
  | Logged _ _ => None
  end.

Definition foundNotice : string :=
  "🚀 ZenML installation found. Ready to use.".

Definition cancelledNotice : string :=
  "Interpreter selection cancelled. ZenML features will be disabled.".

(** A host that refuses the language status item. *)
Definition statusItemRefused (T : Type) (c : HostCall T) : bool :=
  match c with
  | RegisterLanguageStatusItem _ _ _ => true
  | _ => false
  end.

Definition crampedOffice : Collaborators :=
  desk python3 (Some "Select Interpreter") statusItemRefused.

(** A host whose user closes every dialog. *)
Definition quietOffice : Collaborators := desk python3 None reliable.

(** A host that cannot show dialogs. *)
Definition dialogsFail (T : Type) (c : HostCall T) : bool :=
  match c with
  | ShowInformationMessage _ _ => true
  | _ => false
  end.

Definition headlessOffice : Collaborators :=
  desk python3 None dialogsFail.

(** A host on which the second command disposable cannot be disposed. *)
Definition stuckDisposable (T : Type) (c : HostCall T) : bool :=
  match c with
  | Dispose (Handle 2) => true
  | _ => false
  end.

Definition stickyOffice : Collaborators :=
  desk python3 None stuckDisposable.

Definition loadedSticky : @World stickyOffice :=
  withZen {| context := ContextHandle 0;
             commandDisposables := [Handle 1; Handle 2];
             viewDisposables := [Handle 3];
             lsClient := LanguageClient 0;
             outputChannel := OutputChannel 0;
             serverId := "zenml-python";
             serverName := "ZenML";
             viewsAndCommandsSetup := true |}
          (fresh stickyOffice (atDesk true)).

(** * Activation

    [activate], [loadServerDefaults] and [setupLoggingAndTrace] call
    collaborators of their own: the file system and the JSON functions, the
    output channel, the logger and the log-level events.  They are a second
    family of calls, [StartupCall], answered by [respondStartup] over the
    same host state; a [Session] pairs the world with a journal that keeps
    the calls of both families in the order they were made. *)

(** [IServerInfo] *)
Record IServerInfo : Type := {
  name : string;
  module : string
}.

(** The parsed [package.json]; the only member read here is [serverInfo],
    taken as an [IServerInfo] as the cast in [loadServerDefaults] does. *)
Record PackageJson : Type := {
  serverInfo : IServerInfo
}.

(** [vscode.LogLevel] *)
Module LogLevel.
Inductive t : Type := Off | Trace | Debug | Info | Warning | Error.
End LogLevel.

(** [Trace] of the language-client library. *)
Module Trace.
Inductive t : Type := Off | Messages | Compact | Verbose.
End Trace.

(** The [LanguageClient] that [LSClient.getLanguageClient()] hands out. *)
Inductive LanguageClientRef : Type :=
| ClientHandle (id : nat).

(** The closures that [setupLoggingAndTrace] hands to the host. *)
Inductive LogLevelListener : Type :=
| ChannelLevelListener
| EnvLevelListener.

(** An output channel is a [Disposable]: the same object, seen as one. *)
Definition channelDisposable (channel : LogOutputChannel) : Disposable :=
  match channel with
  | OutputChannel id => Handle id
  end.

Inductive StartupCall : Type -> Type :=
| PathJoin (segments : list string) : StartupCall string
(** [fs.readFileSync(path).toString()] *)
| ReadFileSync (path : string) : StartupCall string
| JsonParse (text : string) : StartupCall PackageJson
| JsonStringify (info : IServerInfo) : StartupCall string
| CreateOutputChannel (name : string) : StartupCall LogOutputChannel
| RegisterLogger (channel : LogOutputChannel) : StartupCall Disposable
| ChannelOnDidChangeLogLevel (channel : LogOutputChannel)
    (listener : LogLevelListener) : StartupCall Disposable
| EnvOnDidChangeLogLevel (listener : LogLevelListener) : StartupCall Disposable
| TraceVerbose (message : string) : StartupCall unit
| GetLanguageClient : StartupCall (option LanguageClientRef)
| SetTrace (client : LanguageClientRef) (level : Trace.t) : StartupCall unit.

(** One line of the journal. *)
Inductive Entry : Type :=
| Core (a : Action)
| Startup {T : Type} (call : StartupCall T) (reply : Outcome T).

Class StartupCollaborators `{Collaborators} : Type := {
  (** [EXTENSION_ROOT_DIR] of [common/constants]. *)
  EXTENSION_ROOT_DIR : string;
  respondStartup : forall T : Type, StartupCall T -> Host -> Outcome T * Host;
  (** [getLSClientTraceLevel] of [common/utilities]. *)
  getLSClientTraceLevel : LogLevel.t -> LogLevel.t -> Trace.t;
  (** [vscode.env.logLevel] *)
  envLogLevel : Host -> LogLevel.t;
  (** [channel.logLevel] *)
  channelLogLevel : Host -> LogOutputChannel -> LogLevel.t
}.

Arguments respondStartup {_ _} {T} _ _.

Section Activation.

Context `{startup : StartupCollaborators}.

(** The world and the journal of an activation.  There is one extension
    context; [subscriptions] is its array. *)
Record Session : Type := {
  world : World;
  journal : list Entry
}.

Definition withHost (h : Host) (w : World) : World :=
  {| zen := zen w;
     interpreterSelectionInProgress := interpreterSelectionInProgress w;
     subscriptions := subscriptions w; commands := commands w;
     immediates := immediates w; host := h; trace := trace w |}.

Definition Boot (A : Type) : Type := Session -> Outcome A * Session.

Definition bootRet {A : Type} (a : A) : Boot A := fun s => (Returned a, s).

Definition bootBind {A B : Type} (m : Boot A) (k : A -> Boot B) : Boot B :=
  fun s =>
    match m s with
    | (Returned a, s') => k a s'
    | (Threw e, s') => (Threw e, s')
    end.

Declare Scope boot_scope.
Delimit Scope boot_scope with boot.
Bind Scope boot_scope with Boot.

Notation "x <- m ;; k" := (bootBind m (fun x => k))
  (at level 100, m at next level, right associativity) : boot_scope.
Notation "m ;; k" := (bootBind m (fun _ => k))
  (at level 100, right associativity) : boot_scope.

Local Open Scope boot_scope.

(** Code of the first layer, run inside a session: what it adds to the
    trace goes to the journal. *)
Definition lift {A : Type} (m : Eff A) : Boot A :=
  fun s =>
    let (r, w') := m (world s) in
    (r, {| world := w';
           journal := journal s ++ map Core (performed m (world s)) |}).

(** A field read or a field write, invisible to the host. *)
Definition reads {A : Type} (f : World -> A) : Boot A :=
  fun s => (Returned (f (world s)), s).

Definition writes (f : ZenExtension -> ZenExtension) : Boot unit :=
  fun s =>
    (Returned tt,
     {| world := withZen (f (zen (world s))) (world s); journal := journal s |}).

Definition pushSubscriptions (ds : list Disposable) : Boot unit :=
  fun s =>
    (Returned tt,
     {| world := withSubscriptions (subscriptions (world s) ++ ds) (world s);
        journal := journal s |}).

(** A synchronous call of the second family, or an awaited one. *)
Definition boot {T : Type} (c : StartupCall T) : Boot T :=
  fun s =>
    let (reply, h) := respondStartup c (host (world s)) in
    (reply, {| world := withHost h (world s);
               journal := journal s ++ [Startup c reply] |}).

Definition setContext (c : ExtensionContext) (z : ZenExtension) : ZenExtension :=
  {| context := c;
     commandDisposables := commandDisposables z;
     viewDisposables := viewDisposables z;
     lsClient := lsClient z; outputChannel := outputChannel z;
     serverId := serverId z; serverName := serverName z;
     viewsAndCommandsSetup := viewsAndCommandsSetup z |}.

Definition setLsClient (c : LSClient) (z : ZenExtension) : ZenExtension :=
  {| context := context z;
     commandDisposables := commandDisposables z;
     viewDisposables := viewDisposables z;
     lsClient := c; outputChannel := outputChannel z;
     serverId := serverId z; serverName := serverName z;
     viewsAndCommandsSetup := viewsAndCommandsSetup z |}.

Definition setOutputChannel (c : LogOutputChannel) (z : ZenExtension) :
    ZenExtension :=
  {| context := context z;
     commandDisposables := commandDisposables z;
     viewDisposables := viewDisposables z;
     lsClient := lsClient z; outputChannel := c;
     serverId := serverId z; serverName := serverName z;
     viewsAndCommandsSetup := viewsAndCommandsSetup z |}.

Definition setServerId (s : string) (z : ZenExtension) : ZenExtension :=
  {| context := context z;
     commandDisposables := commandDisposables z;
     viewDisposables := viewDisposables z;
     lsClient := lsClient z; outputChannel := outputChannel z;
     serverId := s; serverName := serverName z;
     viewsAndCommandsSetup := viewsAndCommandsSetup z |}.

Definition setServerName (s : string) (z : ZenExtension) : ZenExtension :=
  {| context := context z;
     commandDisposables := commandDisposables z;
     viewDisposables := viewDisposables z;
     lsClient := lsClient z; outputChannel := outputChannel z;
     serverId := serverId z; serverName := s;
     viewsAndCommandsSetup := viewsAndCommandsSetup z |}.

Definition loadServerDefaults : Boot IServerInfo :=
  packageJson <- boot (PathJoin [EXTENSION_ROOT_DIR; "package.json"]) ;;
  content <- boot (ReadFileSync packageJson) ;;
  config <- boot (JsonParse content) ;;
  bootRet (serverInfo config).

(** [changeLogLevel], the local function of [setupLoggingAndTrace]. *)
Definition changeLogLevel (c g : LogLevel.t) : Boot unit :=
  let level := getLSClientTraceLevel c g in
  lsClient <- boot GetLanguageClient ;;
  match lsClient with
  | Some client => boot (SetTrace client level)
  | None => bootRet tt
  end.

(** The listener given to [outputChannel.onDidChangeLogLevel]. *)
Definition onChannelLogLevelChanged (e : LogLevel.t) : Boot unit :=
  g <- reads (fun w => envLogLevel (host w)) ;;
  changeLogLevel e g.

(** The listener given to [vscode.env.onDidChangeLogLevel]. *)
Definition onEnvLogLevelChanged (e : LogLevel.t) : Boot unit :=
  c <- reads (fun w => channelLogLevel (host w) (outputChannel (zen w))) ;;
  changeLogLevel c e.

Definition runLogLevelListener (l : LogLevelListener) (e : LogLevel.t) :
    Boot unit :=
  match l with
  | ChannelLevelListener => onChannelLogLevelChanged e
  | EnvLevelListener => onEnvLogLevelChanged e
  end.

Definition setupLoggingAndTrace : Boot unit :=
  sname <- reads (fun w => serverName (zen w)) ;;
  created <- boot (CreateOutputChannel sname) ;;
  writes (setOutputChannel created) ;;
  channel <- reads (fun w => outputChannel (zen w)) ;;
  logger <- boot (RegisterLogger channel) ;;
  pushSubscriptions [channelDisposable channel; logger] ;;
  channel1 <- reads (fun w => outputChannel (zen w)) ;;
  l1 <- boot (ChannelOnDidChangeLogLevel channel1 ChannelLevelListener) ;;
  l2 <- boot (EnvOnDidChangeLogLevel EnvLevelListener) ;;
  pushSubscriptions [l1; l2] ;;
  z <- reads zen ;;
  lift (call (TraceLog ("Name: " +:+ serverName z))) ;;
  lift (call (TraceLog ("Module: " +:+ serverId z))) ;;
  json <- boot (JsonStringify {| name := serverName z; module := serverId z |}) ;;
  boot (TraceVerbose ("Full Server Info: " +:+ json)).

Definition activate (context : ExtensionContext) (lsClient : LSClient) :
    Boot unit :=
  writes (setContext context) ;;
  writes (setLsClient lsClient) ;;
  serverDefaults <- loadServerDefaults ;;
  writes (setServerName (name serverDefaults)) ;;
  writes (setServerId (module serverDefaults)) ;;
  setupLoggingAndTrace ;;
  lift subscribeToCoreEvents ;;
  lift deferredInitialize.

End Activation.

(** ** Observations on the journal *)

(** The calls of the deferred initialization: asking for the interpreter,
    listening to the Python extension, starting the language server. *)
Definition isServerStart (a : Action) : bool :=
  match a with
  | Did c _ =>
      match c with
      | RunServer _ _ _ _ => true
      | GetInterpreterDetails => true
      | InitializePython _ => true
      | _ => false
      end
  | Logged _ _ => false
  end.

Definition startsServer (e : Entry) : bool :=
  match e with
  | Core a => isServerStart a
  | Startup _ _ => false
  end.

(** What [m] adds to the journal when run from [s]. *)
Definition recorded `{StartupCollaborators} {A : Type} (m : Boot A)
    (s : Session) : list Entry :=
  drop (length (journal s)) (journal (snd (m s))).

(** The second family at the desk: the file system holds [files], the
    parser knows [parsed], channels and listeners get fresh handles, no
    language client exists unless [client] says so, and the calls selected
    by [faulty] throw. *)
Definition startupReply (files : string -> string) (parsed : string -> PackageJson)
    (client : option LanguageClientRef)
    (T : Type) (c : StartupCall T) (h : Desk) : Outcome T * Desk :=
  let next : Desk :=
    {| zenmlInstalled := zenmlInstalled h; nextHandle := S (nextHandle h) |} in
  match c in StartupCall T return Outcome T * Desk with
  | PathJoin segments => (Returned (String.concat "/" segments), h)
  | ReadFileSync p => (Returned (files p), h)
  | JsonParse text => (Returned (parsed text), h)
  | JsonStringify info =>
      (Returned ("{name:" +:+ name info +:+ ",module:" +:+ module info +:+ "}"), h)
  | CreateOutputChannel _ => (Returned (OutputChannel (nextHandle h)), next)
  | RegisterLogger _ => (Returned (Handle (nextHandle h)), next)
  | ChannelOnDidChangeLogLevel _ _ => (Returned (Handle (nextHandle h)), next)
  | EnvOnDidChangeLogLevel _ => (Returned (Handle (nextHandle h)), next)
  | TraceVerbose _ => (Returned tt, h)
  | GetLanguageClient => (Returned client, h)
  | SetTrace _ _ => (Returned tt, h)
  end.

Definition traceLevelOf (c g : LogLevel.t) : Trace.t :=
  match c, g with
  | LogLevel.Trace, _ => Trace.Verbose
  | LogLevel.Debug, _ => Trace.Compact
  | _, LogLevel.Trace => Trace.Verbose
  | _, LogLevel.Debug => Trace.Compact
  | _, _ => Trace.Off
  end.

Definition deskStartup (C : Collaborators) (reply : forall T : Type,
      StartupCall T -> @Host C -> Outcome T * @Host C) :
    @StartupCollaborators C :=
  {| EXTENSION_ROOT_DIR := "/ext";
     respondStartup := reply;
     getLSClientTraceLevel := traceLevelOf;
     envLogLevel := fun _ => LogLevel.Info;
     channelLogLevel := fun _ _ => LogLevel.Debug |}.

Definition zenmlPackage : PackageJson :=
  {| serverInfo := {| name := "ZenML"; module := "zenml-python" |} |}.

(** An installed extension: [package.json] is there and parses. *)
Definition installed (client : option LanguageClientRef) :
    @StartupCollaborators office :=
  deskStartup office
    (startupReply (fun _ => "{...}") (fun _ => zenmlPackage) client).

(** An installation whose [package.json] does not parse. *)
Definition corrupted : @StartupCollaborators office :=
  deskStartup office
    (fun T c h =>
       match c in StartupCall T return Outcome T * Desk with
       | JsonParse _ => (Threw (JsError "Unexpected token"), h)
       | c' => startupReply (fun _ => "{...") (fun _ => zenmlPackage) None _ c' h
       end).

(** A session that starts before anything is set. *)
Definition cold : @Session office :=
  {| world :=
       withZen {| context := ContextHandle 0;
                  commandDisposables := [];
                  viewDisposables := [];
                  lsClient := LanguageClient 0;
                  outputChannel := OutputChannel 0;
                  serverId := "";
                  serverName := "";
                  viewsAndCommandsSetup := false |}
               (fresh office (atDesk false));
     journal := [] |}.

Section Properties.

Context {collaborators : Collaborators}.

Lemma advance_advance (h1 h2 : Host) (a1 a2 : list Action) (w : World) :
  advance h2 a2 (advance h1 a1 w) = advance h2 (a1 ++ a2) w.
Proof. unfold advance; simpl. by rewrite <- app_assoc. Qed.

Lemma performed_extends {A : Type} (m : Eff A) (w : World) (acts : list Action) :
  trace (snd (m w)) = trace w ++ acts -> performed m w = acts.
Proof. intros E. unfold performed. rewrite E. apply drop_app_length. Qed.

Lemma sameExtension_advance (h : Host) (acts : list Action) (w : World) :
  sameExtension w (advance h acts w).
Proof. by repeat split. Qed.

(** One step of symbolic execution: unfold the monad, then split on the
    next reply of the host. *)
Ltac unfold_eff :=
  unfold bind, ret, gets, modify, call, spawn, consoleLog in *; simpl in *.

Ltac next_reply :=
  match goal with
  | |- context [respond ?c ?h] =>
      let r := fresh "r" in
      let h' := fresh "h" in
      let E := fresh "E" in
      destruct (respond c h) as [r h'] eqn:E; simpl in *
  end.

Lemma runServer_run (w : World) :
  let z := zen w in
  let c := RunServer (serverId z) (serverName z) (outputChannel z) (lsClient z) in
  runServer w = (fst (respond c (host w)),
                 advance (snd (respond c (host w)))
                         [Did c (fst (respond c (host w)))] w).
Proof. unfold runServer. unfold_eff. by next_reply. Qed.

Lemma configuration_listener_run (e : ConfigurationChangeEvent) (w : World) :
  let z := zen w in
  let c := RunServer (serverId z) (serverName z) (outputChannel z) (lsClient z) in
  onConfigurationChanged e w =
    if checkIfConfigurationChanged e (serverId z) then
      (fst (respond c (host w)),
       advance (snd (respond c (host w)))
         [Logged "Configuration changed, restarting LSP server..." (Some e);
          Did c (fst (respond c (host w)))] w)
    else (Returned tt, w).
Proof.
  intros z c.
  unfold onConfigurationChanged, bind, gets; cbn beta iota. fold z.
  destruct (checkIfConfigurationChanged e (serverId z)); [|reflexivity].
  unfold consoleLog, modify. rewrite runServer_run. simpl.
  by rewrite advance_advance.
Qed.

(** C1.  The configuration listener restarts the language server exactly
    when [checkIfConfigurationChanged(e, serverId)] is true: it then logs a
    line and calls [runServer] with the stored [serverId], [serverName],
    [outputChannel] and [lsClient], and its outcome is that of the call;
    otherwise it leaves the world as it found it. *)
Theorem configuration_change_restarts_iff (e : ConfigurationChangeEvent)
    (w : World) :
  let z := zen w in
  let c := RunServer (serverId z) (serverName z) (outputChannel z) (lsClient z) in
  existsb isRunServer (performed (onConfigurationChanged e) w)
    = checkIfConfigurationChanged e (serverId z) /\
  if checkIfConfigurationChanged e (serverId z) then
    onConfigurationChanged e w =
      (fst (respond c (host w)),
       advance (snd (respond c (host w)))
         [Logged "Configuration changed, restarting LSP server..." (Some e);
          Did c (fst (respond c (host w)))] w)
  else onConfigurationChanged e w = (Returned tt, w).
Proof.
  intros z c. pose proof (configuration_listener_run e w) as R.
  cbv zeta in R. fold z in R. fold c in R.
  destruct (checkIfConfigurationChanged e (serverId z)).
  - split; [|exact R].
    rewrite (performed_extends _ _
      [Logged "Configuration changed, restarting LSP server..." (Some e);
       Did c (fst (respond c (host w)))]); [done | by rewrite R].
  - split; [|exact R].
    rewrite (performed_extends _ _ []); [done |].
    rewrite R. simpl. by rewrite app_nil_r.
Qed.

(** C7.  Running the command registered as [`${serverId}.restart`] calls
    [runServer] with the stored [serverId], [serverName], [outputChannel]
    and [lsClient]; the outcome of the command is that of the call, and
    nothing but the host and the trace changes. *)
Theorem restart_command_forwards (w : World) :
  let z := zen w in
  let c := RunServer (serverId z) (serverName z) (outputChannel z) (lsClient z) in
  commands w !! (serverId z +:+ ".restart") = Some RestartHandler ->
  runCommand (serverId z +:+ ".restart") w =
    (fst (respond c (host w)),
     advance (snd (respond c (host w))) [Did c (fst (respond c (host w)))] w).
Proof.
  intros z c Hreg. unfold runCommand. fold z. rewrite Hreg. simpl.
  unfold restart. apply runServer_run.
Qed.

(** C8.  Once [viewsAndCommandsSetup] is true, [setupViewsAndCommands] logs
    a line and calls [refreshUIComponents], and that is all: no tree view
    is created, no registry runs, and every field of the extension,
    [viewDisposables] included, keeps its value. *)
Theorem setup_again_only_refreshes (w : World) :
  viewsAndCommandsSetup (zen w) = true ->
  setupViewsAndCommands w =
    (fst (respond RefreshUIComponents (host w)),
     advance (snd (respond RefreshUIComponents (host w)))
       [Logged "Views and commands have already been set up. Refreshing views..." None;
        Did RefreshUIComponents (fst (respond RefreshUIComponents (host w)))] w)
  /\ sameExtension w (snd (setupViewsAndCommands w))
  /\ filter (fun a => negb (isLogged a)) (performed setupViewsAndCommands w) =
       [Did RefreshUIComponents (fst (respond RefreshUIComponents (host w)))].
Proof.
  intros Hset.
  assert (R : setupViewsAndCommands w =
    (fst (respond RefreshUIComponents (host w)),
     advance (snd (respond RefreshUIComponents (host w)))
       [Logged "Views and commands have already been set up. Refreshing views..." None;
        Did RefreshUIComponents (fst (respond RefreshUIComponents (host w)))] w)).
  { unfold setupViewsAndCommands, bind, gets; cbn beta iota. rewrite Hset.
    unfold consoleLog, modify, call. simpl.
    destruct (respond RefreshUIComponents (host w)) as [r h]. simpl.
    by rewrite advance_advance. }
  split; [exact R|]. split.
  - rewrite R. apply sameExtension_advance.
  - rewrite (performed_extends _ _
      [Logged "Views and commands have already been set up. Refreshing views..." None;
       Did RefreshUIComponents (fst (respond RefreshUIComponents (host w)))]);
      [done | by rewrite R].
Qed.

(** C6.  A call of [setupViewsAndCommands] that starts with
    [viewsAndCommandsSetup] false and completes has instantiated the status
    bar, created one tree view for each of the four entries of
    [dataProviders] and pushed the four views, in that order, onto
    [viewDisposables], run the three registries, refreshed the UI and set
    [viewsAndCommandsSetup]; it has done nothing else. *)
Theorem first_setup_registers_everything (w : World) :
  viewsAndCommandsSetup (zen w) = false ->
  fst (setupViewsAndCommands w) = Returned tt ->
  let w' := snd (setupViewsAndCommands w) in
  exists v1 v2 v3 v4 : Disposable,
    trace w' = trace w ++
      [ Did StatusBarGetInstance (Returned tt);
        Did (CreateTreeView "zenmlServerView" ServerDataProvider) (Returned v1);
        Did (CreateTreeView "zenmlStackView" StackDataProvider) (Returned v2);
        Did (CreateTreeView "zenmlPipelineView" PipelineDataProvider) (Returned v3);
        Did (CreateTreeView "zenmlEnvironmentView" EnvironmentDataProvider) (Returned v4);
        Did (RegisterCommands registerServerCommands (context (zen w))) (Returned tt);
        Did (RegisterCommands registerStackCommands (context (zen w))) (Returned tt);
        Did (RegisterCommands registerPipelineCommands (context (zen w))) (Returned tt);
        Did RefreshUIComponents (Returned tt) ]
    /\ viewDisposables (zen w') = viewDisposables (zen w) ++ [v1; v2; v3; v4]
    /\ viewsAndCommandsSetup (zen w') = true
    /\ context (zen w') = context (zen w)
    /\ commandDisposables (zen w') = commandDisposables (zen w)
    /\ lsClient (zen w') = lsClient (zen w)
    /\ outputChannel (zen w') = outputChannel (zen w)
    /\ serverId (zen w') = serverId (zen w)
    /\ serverName (zen w') = serverName (zen w)
    /\ interpreterSelectionInProgress w' = interpreterSelectionInProgress w
    /\ subscriptions w' = subscriptions w
    /\ commands w' = commands w
    /\ immediates w' = immediates w.
Proof.
  intros Hunset. cbv zeta.
  unfold setupViewsAndCommands, dataProviders, registries, forEach,
    pushViewDisposable, setViewsAndCommandsSetup.
  unfold_eff. rewrite !Hunset.
  repeat (next_reply;
          match goal with
          | r : Outcome _ |- _ => destruct r as [[]|?] || destruct r as [?|?]
          end; simpl; [| discriminate]).
  intros _. eexists _, _, _, _. rewrite <- !app_assoc. simpl.
  repeat split; reflexivity.
Qed.

Lemma interpreter_listener_run (d : IInterpreterDetails) (w : World) :
  match path d with
  | None => onInterpreterChanged d w = (Returned tt, w)
  | Some p =>
      let z := zen w in
      exists (r1 r2 r3 : Outcome unit) (h : Host),
        let steps :=
          [ (UpdateDefaultPythonInterpreterPath (head p), r1);
            (UpdateWorkspaceInterpreterSettings (head p), r2);
            (RunServer (serverId z) (serverName z) (outputChannel z)
               (lsClient z), r3) ] in
        onInterpreterChanged d w =
          (chainOutcome steps,
           advance h
             (Logged "Interpreter changed, restarting LSP server..." None
                :: chain steps) w)
  end.
Proof.
  unfold onInterpreterChanged. destruct (path d) as [p|]; [|reflexivity].
  unfold updateGlobalSettings, runServer. unfold_eff.
  next_reply. destruct r as [[]|e1].
  - next_reply. destruct r as [[]|e2].
    + next_reply. exists (Returned tt), (Returned tt), r, h1.
      destruct r as [[]|e3]; simpl; by rewrite !advance_advance.
    + exists (Returned tt), (Threw e2), (Returned tt), h0. simpl.
      by rewrite !advance_advance.
  - exists (Threw e1), (Returned tt), (Returned tt), h. simpl.
    by rewrite !advance_advance.
Qed.

(** C3.  With [path] absent the interpreter listener leaves the world as it
    found it.  With [path] present it logs a line and then calls, each once
    the one before has returned, [updateDefaultPythonInterpreterPath] and
    [updateWorkspaceInterpreterSettings] with [path[0]] and [runServer]
    with the stored fields: the restart comes after both updates, and a
    throwing update ends the listener before it. *)
Theorem interpreter_change_updates_then_restarts (d : IInterpreterDetails)
    (w : World) :
  match path d with
  | None => onInterpreterChanged d w = (Returned tt, w)
  | Some p =>
      let z := zen w in
      exists (r1 r2 r3 : Outcome unit) (h : Host),
        let steps :=
          [ (UpdateDefaultPythonInterpreterPath (head p), r1);
            (UpdateWorkspaceInterpreterSettings (head p), r2);
            (RunServer (serverId z) (serverName z) (outputChannel z)
               (lsClient z), r3) ] in
        onInterpreterChanged d w =
          (chainOutcome steps,
           advance h
             (Logged "Interpreter changed, restarting LSP server..." None
                :: chain steps) w)
  end.
Proof. exact (interpreter_listener_run d w). Qed.

Lemma deferredInitialize_queues_callback (w : World) :
  deferredInitialize w =
    (Returned tt, withImmediates (immediates w ++ [DeferredInitialization]) w)
  /\ runImmediate DeferredInitialization = deferredInitialization.
Proof. split; reflexivity. Qed.

(** C4.  The deferred callback first asks for the interpreter details.
    When they carry a [path] it then updates the default and the workspace
    interpreter setting with [path[0]]; when they do not, it writes a trace
    line and calls [initializePython] with [context.subscriptions].  Once
    these calls have returned it calls [runServer] with the stored fields,
    once and last; a call that throws ends the callback before
    [runServer]. *)
Theorem deferred_initialization_runs_server (w : World) :
  let z := zen w in
  let run :=
    RunServer (serverId z) (serverName z) (outputChannel z) (lsClient z) in
  exists (r0 : Outcome IInterpreterDetails) (h0 : Host),
    respond GetInterpreterDetails (host w) = (r0, h0) /\
    match r0 with
    | Threw e =>
        deferredInitialization w =
          (Threw e, advance h0 [Did GetInterpreterDetails r0] w)
    | Returned d =>
        exists (r1 r2 r3 : Outcome unit) (h : Host),
          let steps :=
            match path d with
            | Some p =>
                [ (UpdateDefaultPythonInterpreterPath (head p), r1);
                  (UpdateWorkspaceInterpreterSettings (head p), r2);
                  (run, r3) ]
            | None =>
                [ (TraceLog "Setting up Python extension listener.", r1);
                  (InitializePython (subscriptions w), r2);
                  (run, r3) ]
            end in
          deferredInitialization w =
            (chainOutcome steps,
             advance h (Did GetInterpreterDetails r0 :: chain steps) w)
    end.
Proof.
  intros z run. subst z run.
  unfold deferredInitialization, updateGlobalSettings, runServer. unfold_eff.
  next_reply. exists r, h. split; [reflexivity|].
  destruct r as [d|e]; [|reflexivity].
  destruct (path d) as [p|]; simpl.
  - next_reply. destruct r as [[]|e1].
    + next_reply. destruct r as [[]|e2].
      * next_reply. exists (Returned tt), (Returned tt), r, h2.
        destruct r as [[]|e3]; simpl; by rewrite !advance_advance.
      * exists (Returned tt), (Threw e2), (Returned tt), h1. simpl.
        by rewrite !advance_advance.
    + exists (Threw e1), (Returned tt), (Returned tt), h0. simpl.
      by rewrite !advance_advance.
  - next_reply. destruct r as [[]|e1].
    + next_reply. destruct r as [[]|e2].
      * next_reply. exists (Returned tt), (Returned tt), r, h2.
        destruct r as [[]|e3]; simpl; by rewrite !advance_advance.
      * exists (Returned tt), (Threw e2), (Returned tt), h1. simpl.
        by rewrite !advance_advance.
    + exists (Threw e1), (Returned tt), (Returned tt), h0. simpl.
      by rewrite !advance_advance.
Qed.


(** *** Strings *)

Lemma lastChar_append (s t : string) :
  t <> EmptyString -> lastChar (s +:+ t) = lastChar t.
Proof.
  intros Ht. induction s as [|a s IH]; [reflexivity|].
  change (lastChar (String a (s +:+ t)) = lastChar t).
  destruct (s +:+ t) as [|b u] eqn:E; [|exact IH].
  destruct s as [|c s].
  - change (t = EmptyString) in E. contradiction.
  - change (String c (s +:+ t) = EmptyString) in E. discriminate.
Qed.

Lemma restart_is_not_the_prompt_command (sid : string) :
  sid +:+ ".restart" <> "zenml.promptForInterpreter".
Proof.
  intros E. apply (f_equal lastChar) in E.
  rewrite lastChar_append in E; [|discriminate]. discriminate.
Qed.

Lemma restart_is_not_showLogs (sid : string) :
  sid +:+ ".showLogs" <> sid +:+ ".restart".
Proof.
  intros E. apply (f_equal lastChar) in E.
  rewrite !lastChar_append in E; discriminate.
Qed.

Lemma showLogs_is_not_the_prompt_command (sid : string) :
  sid +:+ ".showLogs" <> "zenml.promptForInterpreter".
Proof.
  intros E. apply (f_equal lastChar) in E.
  rewrite lastChar_append in E; [|discriminate]. discriminate.
Qed.

(** *** The two blocks of [promptForPythonInterpreter] *)

Lemma prompt_try_run (w : World) :
  exists (out : Outcome bool) (acts : list Action) (h : Host),
    promptForPythonInterpreter_try w = (out, advance h acts w) /\
    length (filter isPromptDialog acts) = 1 /\
    Forall (fun name => name = "python.setInterpreter" \/
                        name = serverId (zen w) +:+ ".restart")
           (omap executed acts).
Proof.
  unfold promptForPythonInterpreter_try. unfold_eff.
  next_reply. destruct r as [selected|e].
  - destruct (decide (selected = Some "Select Interpreter")) as [_|_].
    + next_reply. destruct r as [[]|e1].
      * next_reply.
        destruct r as [[]|e2]; eexists _, _, _;
          (split; [rewrite !advance_advance; reflexivity|]);
          (split; [reflexivity|]); simpl; repeat (apply Forall_cons_2; [auto|]); apply Forall_nil_2.
      * eexists _, _, _. split; [by rewrite advance_advance|].
        split; [reflexivity|]. simpl. repeat (apply Forall_cons_2; [auto|]); apply Forall_nil_2.
    + eexists _, _, _. split; [by rewrite advance_advance|].
      split; [reflexivity|]. constructor.
  - eexists _, _, _. split; [reflexivity|].
    split; [reflexivity|]. constructor.
Qed.

Lemma prompt_finally_run (attempt : Outcome bool) (w : World) :
  exists (acts : list Action) (h : Host),
    promptForPythonInterpreter_finally attempt w =
      (Returned tt, advance h acts (withInterpreterSelectionInProgress false w)) /\
    filter isPromptDialog acts = [] /\
    omap executed acts = [].
Proof.
  unfold promptForPythonInterpreter_finally, setInterpreterSelectionInProgress.
  unfold_eff.
  destruct (isZenMLReady (host w)) eqn:Ready; simpl; rewrite ?Ready; simpl.
  - next_reply. eexists _, _. split; [reflexivity|]. split; reflexivity.
  - destruct (negb match attempt with Returned c => c | Threw _ => false end).
    + eexists _, _. split; [reflexivity|]. split; reflexivity.
    + simpl. rewrite Ready. next_reply.
      eexists _, _. split; [reflexivity|]. split; reflexivity.
Qed.

(** [promptForPythonInterpreter] from a host without ZenML: the flag is
    raised, the [try] block runs, the [finally] block runs. *)
Lemma prompt_run (w : World) :
  isZenMLReady (host w) = false ->
  exists (out : Outcome unit) (acts1 acts2 : list Action) (h1 h2 : Host),
    promptForPythonInterpreter w =
      (out, advance h2 acts2
              (withInterpreterSelectionInProgress false
                 (advance h1 acts1
                    (withInterpreterSelectionInProgress true w)))) /\
    length (filter isPromptDialog acts1) = 1 /\
    Forall (fun name => name = "python.setInterpreter" \/
                        name = serverId (zen w) +:+ ".restart")
           (omap executed acts1) /\
    filter isPromptDialog acts2 = [] /\
    omap executed acts2 = [].
Proof.
  intros Ready.
  unfold promptForPythonInterpreter, tryFinally, bind, gets,
    setInterpreterSelectionInProgress, modify, ret. rewrite Ready.
  destruct (prompt_try_run (withInterpreterSelectionInProgress true w))
    as (out & acts1 & h1 & Etry & Hone & Hcmds).
  rewrite Etry.
  destruct (prompt_finally_run out
              (advance h1 acts1 (withInterpreterSelectionInProgress true w)))
    as (acts2 & h2 & Efin & Hnone & Hnocmd).
  rewrite Efin.
  exists (match out with Returned _ => Returned tt | Threw e => Threw e end),
    acts1, acts2, h1, h2.
  split; [by destruct out|]. auto.
Qed.


(** C5.  A run of [promptForPythonInterpreter] asks the interpreter
    question once when ZenML is not ready at the start and never when it
    is, however the run ends; and no command it executes is
    [zenml.promptForInterpreter], the one command of this extension that
    calls [promptForPythonInterpreter]. *)
Theorem prompt_is_not_retried (w : World) :
  let tr := performed promptForPythonInterpreter w in
  length (filter isPromptDialog tr) = (if isZenMLReady (host w) then 0 else 1)
  /\ Forall (fun name => name <> "zenml.promptForInterpreter")
            (omap executed tr).
Proof.
  cbv zeta. destruct (isZenMLReady (host w)) eqn:Ready.
  - rewrite (performed_extends _ _
      [Logged "ZenML is already installed, no need to prompt for interpreter." None]).
    + split; [reflexivity | constructor].
    + unfold promptForPythonInterpreter, bind, gets. by rewrite Ready.
  - destruct (prompt_run w Ready)
      as (out & a1 & a2 & h1 & h2 & E & Hone & Hcmds & Hnone & Hnocmd).
    rewrite (performed_extends _ _ (a1 ++ a2)).
    + rewrite filter_app, length_app, Hone, Hnone. split; [reflexivity|].
      rewrite omap_app, Hnocmd, app_nil_r.
      eapply Forall_impl; [exact Hcmds|]. intros name [-> | ->].
      * discriminate.
      * apply restart_is_not_the_prompt_command.
    + rewrite E. simpl. by rewrite app_assoc.
Qed.

(** C2.  Neither listener writes a field of the extension, the flag of the
    language client, the subscriptions or the command table.  Apart from
    console lines, the configuration listener calls [runServer] and nothing
    else; the interpreter listener also calls the two settings updates of
    [updateGlobalSettings], and nothing else. *)
Theorem listeners_update_settings_and_restart_only (ev : EditorEvent)
    (w : World) :
  sameExtension w (snd (handleEvent ev w)) /\
  forallb (fun a => isLogged a || isRunServer a ||
                    match ev with
                    | PythonInterpreterChanged _ => isSettingsUpdate a
                    | ConfigurationChanged _ => false
                    end)
          (performed (handleEvent ev) w) = true.
Proof.
  destruct ev as [d|e]; simpl.
  - pose proof (interpreter_listener_run d w) as R.
    destruct (path d) as [p|].
    + destruct R as (r1 & r2 & r3 & h & R). cbv zeta in R. rewrite R. split.
      * apply sameExtension_advance.
      * rewrite (performed_extends _ _ _ (f_equal (fun x => trace (snd x)) R)).
        destruct r1, r2, r3; reflexivity.
    + rewrite R. split; [by repeat split|].
      rewrite (performed_extends _ _ []); [done|].
      rewrite R. simpl. by rewrite app_nil_r.
  - pose proof (configuration_listener_run e w) as R. cbv zeta in R.
    destruct (checkIfConfigurationChanged e (serverId (zen w))).
    + rewrite R. split; [apply sameExtension_advance|].
      rewrite (performed_extends _ _ _ (f_equal (fun x => trace (snd x)) R)).
      reflexivity.
    + rewrite R. split; [by repeat split|].
      rewrite (performed_extends _ _ []); [done|].
      rewrite R. simpl. by rewrite app_nil_r.
Qed.

Lemma bind_call_run {T B : Type} (c : HostCall T) (k : T -> Eff B) (w : World) :
  bind (call c) k w =
    match respond c (host w) with
    | (Returned a, h) => k a (advance h [Did c (Returned a)] w)
    | (Threw e, h) => (Threw e, advance h [Did c (Threw e)] w)
    end.
Proof. unfold bind, call. by destruct (respond c (host w)) as [[a|e] h]. Qed.

Lemma forEach_dispose_run (ds : list Disposable) (w : World) :
  fst (forEach (fun d => call (Dispose d)) ds w) = Returned tt ->
  exists h : Host,
    forEach (fun d => call (Dispose d)) ds w =
      (Returned tt,
       advance h (map (fun d => Did (Dispose d) (Returned tt)) ds) w).
Proof.
  revert w. induction ds as [|d ds IH]; intros w.
  - intros _. exists (host w). simpl. unfold ret, advance.
    rewrite app_nil_r. by destruct w.
  - simpl. rewrite bind_call_run.
    destruct (respond (Dispose d) (host w)) as [[[]|e] h1]; [|discriminate].
    intros Hrest. destruct (IH _ Hrest) as [h E]. exists h.
    rewrite E. by rewrite advance_advance.
Qed.


Lemma bind_returned {A B : Type} (m : Eff A) (k : A -> Eff B) (w w' : World)
    (b : B) :
  bind m k w = (Returned b, w') ->
  exists (a : A) (w1 : World), m w = (Returned a, w1) /\ k a w1 = (Returned b, w').
Proof.
  unfold bind. destruct (m w) as [[a|e] w1]; [eauto | discriminate].
Qed.

Lemma deactivateFeatures_run (w : World) :
  fst (deactivateFeatures w) = Returned tt ->
  let z := zen w in
  exists h1 h2 : Host,
    deactivateFeatures w =
      (Returned tt,
       advance h2 [Logged "Features deactivated due to unmet requirements." None]
         (withZen {| context := context z; commandDisposables := [];
                     viewDisposables := []; lsClient := lsClient z;
                     outputChannel := outputChannel z; serverId := serverId z;
                     serverName := serverName z;
                     viewsAndCommandsSetup := viewsAndCommandsSetup z |}
            (advance h2
               (map (fun d => Did (Dispose d) (Returned tt)) (viewDisposables z))
               (advance h1
                  (map (fun d => Did (Dispose d) (Returned tt))
                       (commandDisposables z)) w)))).
Proof.
  intros Hdone z.
  destruct (deactivateFeatures w) as [o w'] eqn:Run. simpl in Hdone. subst o.
  unfold deactivateFeatures in Run.
  apply bind_returned in Run as (cmds & w0 & G & Run).
  unfold gets in G. injection G as <- <-.
  apply bind_returned in Run as ([] & w1 & F1 & Run).
  destruct (forEach_dispose_run (commandDisposables (zen w)) w) as [h1 E1];
    [by rewrite F1|].
  rewrite E1 in F1. injection F1 as <-.
  apply bind_returned in Run as ([] & w2 & S1 & Run).
  unfold setCommandDisposables, modify in S1. injection S1 as <-.
  apply bind_returned in Run as (views & w3 & G & Run).
  unfold gets in G. injection G as <- <-. simpl in Run.
  apply bind_returned in Run as ([] & w4 & F2 & Run).
  match type of F2 with
  | forEach ?f ?l ?x = _ =>
      destruct (forEach_dispose_run l x) as [h2 E2]; [by rewrite F2|]
  end.
  rewrite E2 in F2. injection F2 as <-.
  apply bind_returned in Run as ([] & w5 & S2 & Run).
  unfold setViewDisposables, modify in S2. injection S2 as <-.
  unfold consoleLog, modify in Run. injection Run as <-.
  exists h1, h2. reflexivity.
Qed.


(** *** Registration *)

(** A completed [subscribeToCoreEvents] has registered the two listeners,
    the three commands and the status item, in source order, and pushed
    the six disposables onto [context.subscriptions]. *)
Lemma subscribeToCoreEvents_run (w : World) :
  fst (subscribeToCoreEvents w) = Returned tt ->
  let z := zen w in
  let w' := snd (subscribeToCoreEvents w) in
  exists d1 d2 d3 d4 d5 d6 : Disposable,
    trace w' = trace w ++
      [ Did (OnDidChangePythonInterpreter InterpreterListener) (Returned d1);
        Did (RegisterCommand (serverId z +:+ ".showLogs") ShowLogsHandler)
            (Returned d2);
        Did (OnDidChangeConfiguration ConfigurationListener) (Returned d3);
        Did (RegisterCommand (serverId z +:+ ".restart") RestartHandler)
            (Returned d4);
        Did (RegisterCommand "zenml.promptForInterpreter"
               PromptForInterpreterHandler) (Returned d5);
        Did (RegisterLanguageStatusItem (serverId z) (serverName z)
               (serverId z +:+ ".showLogs")) (Returned d6) ]
    /\ subscriptions w' = subscriptions w ++ [d1; d2; d3; d4; d5; d6]
    /\ commands w' =
         <["zenml.promptForInterpreter" := PromptForInterpreterHandler]>
           (<[serverId z +:+ ".restart" := RestartHandler]>
              (<[serverId z +:+ ".showLogs" := ShowLogsHandler]> (commands w)))
    /\ zen w' = zen w.
Proof.
  cbv zeta. unfold subscribeToCoreEvents, registerCommand. unfold_eff.
  repeat (next_reply;
          match goal with
          | r : Outcome _ |- _ => destruct r as [?|?]
          end; simpl; [| discriminate]).
  intros _. eexists _, _, _, _, _, _. rewrite <- !app_assoc. simpl.
  repeat split; reflexivity.
Qed.

Lemma subscribeToCoreEvents_registers (w : World) :
  fst (subscribeToCoreEvents w) = Returned tt ->
  let z := zen w in
  let w' := snd (subscribeToCoreEvents w) in
  commands w' !! (serverId z +:+ ".showLogs") = Some ShowLogsHandler /\
  commands w' !! (serverId z +:+ ".restart") = Some RestartHandler /\
  commands w' !! "zenml.promptForInterpreter" = Some PromptForInterpreterHandler.
Proof.
  intros Hdone z w'.
  destruct (subscribeToCoreEvents_run w Hdone)
    as (d1 & d2 & d3 & d4 & d5 & d6 & _ & _ & Hcmds & _).
  subst w'. rewrite Hcmds. fold z. split; [|split].
  - rewrite lookup_insert_ne
      by (intros E; symmetry in E; by apply showLogs_is_not_the_prompt_command in E).
    rewrite lookup_insert_ne
      by (intros E; symmetry in E; by apply restart_is_not_showLogs in E).
    apply lookup_insert_eq.
  - rewrite lookup_insert_ne
      by (intros E; symmetry in E; by apply restart_is_not_the_prompt_command in E).
    apply lookup_insert_eq.
  - apply lookup_insert_eq.
Qed.


(** ** Beyond the claims: registration *)

(** X1.  A [subscribeToCoreEvents] that completes has made six
    registrations in source order (interpreter listener, [showLogs]
    command, configuration listener, [restart] command,
    [zenml.promptForInterpreter] command, language status item), pushed
    the six disposables in that order onto [context.subscriptions], put the
    three commands in the command table, and written no field of the
    class. *)
Theorem subscribe_registers_in_source_order (w : World) :
  fst (subscribeToCoreEvents w) = Returned tt ->
  let z := zen w in
  let w' := snd (subscribeToCoreEvents w) in
  exists d1 d2 d3 d4 d5 d6 : Disposable,
    trace w' = trace w ++
      [ Did (OnDidChangePythonInterpreter InterpreterListener) (Returned d1);
        Did (RegisterCommand (serverId z +:+ ".showLogs") ShowLogsHandler)
            (Returned d2);
        Did (OnDidChangeConfiguration ConfigurationListener) (Returned d3);
        Did (RegisterCommand (serverId z +:+ ".restart") RestartHandler)
            (Returned d4);
        Did (RegisterCommand "zenml.promptForInterpreter"
               PromptForInterpreterHandler) (Returned d5);
        Did (RegisterLanguageStatusItem (serverId z) (serverName z)
               (serverId z +:+ ".showLogs")) (Returned d6) ]
    /\ subscriptions w' = subscriptions w ++ [d1; d2; d3; d4; d5; d6]
    /\ commands w' =
         <["zenml.promptForInterpreter" := PromptForInterpreterHandler]>
           (<[serverId z +:+ ".restart" := RestartHandler]>
              (<[serverId z +:+ ".showLogs" := ShowLogsHandler]> (commands w)))
    /\ zen w' = zen w.
Proof. exact (subscribeToCoreEvents_run w). Qed.

(** X2.  When one of the six registrations throws, [subscribeToCoreEvents]
    throws the same exception right there, and nothing has been pushed onto
    [context.subscriptions]: the disposables of the registrations made
    before it are not kept. *)
Theorem subscribe_failure_pushes_nothing (w : World) (e : Error) :
  fst (subscribeToCoreEvents w) = Threw e ->
  let w' := snd (subscribeToCoreEvents w) in
  subscriptions w' = subscriptions w
  /\ zen w' = zen w
  /\ exists (c : HostCall Disposable),
       last (performed subscribeToCoreEvents w) = Some (Did c (Threw e)).
Proof.
  cbv zeta. unfold performed.
  unfold subscribeToCoreEvents, registerCommand. unfold_eff.
  repeat (next_reply;
          match goal with
          | r : Outcome _ |- _ => destruct r as [?|?]
          end; simpl;
          [| intros [= ->]; split; [reflexivity|]; split; [reflexivity|];
             eexists; rewrite <- ?app_assoc; rewrite drop_app_length;
             reflexivity]).
  discriminate.
Qed.

Lemma showLogs_run (w : World) :
  let c := OutputChannelShow (outputChannel (zen w)) in
  showLogs w = (fst (respond c (host w)),
                advance (snd (respond c (host w)))
                        [Did c (fst (respond c (host w)))] w).
Proof. unfold showLogs. unfold_eff. by next_reply. Qed.

(** X3.  After a [subscribeToCoreEvents] that completes, whatever the
    server id, running [`${serverId}.showLogs`] shows the stored output
    channel and does nothing else; the outcome of the command is that of
    [show()]. *)
Theorem showLogs_command_shows_channel (w : World) :
  fst (subscribeToCoreEvents w) = Returned tt ->
  let w1 := snd (subscribeToCoreEvents w) in
  let c := OutputChannelShow (outputChannel (zen w)) in
  runCommand (serverId (zen w) +:+ ".showLogs") w1 =
    (fst (respond c (host w1)),
     advance (snd (respond c (host w1))) [Did c (fst (respond c (host w1)))] w1).
Proof.
  intros Hdone w1 c.
  destruct (subscribeToCoreEvents_registers w Hdone) as (Hshow & _ & _).
  destruct (subscribeToCoreEvents_run w Hdone)
    as (d1 & d2 & d3 & d4 & d5 & d6 & _ & _ & _ & Hzen).
  cbv zeta in Hshow, Hzen. fold w1 in Hshow, Hzen.
  unfold runCommand. rewrite Hshow. simpl.
  subst c. rewrite <- Hzen. apply showLogs_run.
Qed.

(** ** Beyond the claims: the interpreter prompt *)

(** X4.  The [zenml.promptForInterpreter] command does nothing at all while
    a selection is in progress or when ZenML is ready, and in every case
    leaves [interpreterSelectionInProgress] with the value it had. *)
Theorem prompt_command_is_guarded (w : World) :
  (interpreterSelectionInProgress w || isZenMLReady (host w) = true ->
   promptForInterpreterCommand w = (Returned tt, w))
  /\ interpreterSelectionInProgress (snd (promptForInterpreterCommand w)) =
       interpreterSelectionInProgress w.
Proof.
  unfold promptForInterpreterCommand, bind, gets; cbn beta iota.
  destruct (interpreterSelectionInProgress w) eqn:Flag;
    destruct (isZenMLReady (host w)) eqn:Ready; simpl;
    try (split; [reflexivity | by rewrite ?Flag]).
  split; [discriminate|].
  destruct (prompt_run w Ready) as (out & a1 & a2 & h1 & h2 & E & _).
  rewrite E. reflexivity.
Qed.

(** X5.  When ZenML is not ready and the user answers the question with
    anything but "Select Interpreter" (the "Cancel" button, or closing the
    dialog), [promptForPythonInterpreter] executes no command and returns:
    it logs the cancellation, lowers the flag, and ends with one
    notification, "installation found" when ZenML has become ready in the
    meantime and "selection cancelled" otherwise. *)
Theorem prompt_cancelled (w : World) (selected : option string) (h : Host) :
  isZenMLReady (host w) = false ->
  respond (ShowInformationMessage promptQuestion promptItems) (host w) =
    (Returned selected, h) ->
  selected <> Some "Select Interpreter" ->
  let notice :=
    ShowInformationMessage
      (if isZenMLReady h then foundNotice else cancelledNotice) [] in
  fst (promptForPythonInterpreter w) = Returned tt
  /\ performed promptForPythonInterpreter w =
       [ Did (ShowInformationMessage promptQuestion promptItems)
             (Returned selected);
         Logged "Interpreter selection cancelled." None;
         Did notice (fst (respond notice h)) ]
  /\ interpreterSelectionInProgress (snd (promptForPythonInterpreter w)) = false.
Proof.
  intros Ready Hdialog Hcancel. cbv zeta.
  unfold performed, foundNotice, cancelledNotice.
  unfold promptForPythonInterpreter, tryFinally, promptForPythonInterpreter_try,
    promptForPythonInterpreter_finally, setInterpreterSelectionInProgress.
  unfold_eff. rewrite !Ready. simpl. rewrite !Hdialog. simpl.
  destruct (decide (selected = Some "Select Interpreter")) as [E|_];
    [contradiction|]. simpl.
  destruct (isZenMLReady h) eqn:Ready'; simpl; rewrite ?Ready'; simpl;
    next_reply; rewrite <- ?app_assoc; rewrite drop_app_length;
    repeat split; reflexivity.
Qed.

(** X6.  When ZenML is not ready and the user picks "Select Interpreter",
    [promptForPythonInterpreter] executes [python.setInterpreter] and then,
    only if that returned, [`${serverId}.restart`]; an exception of either
    command is the outcome of the function (the [finally] block does not
    swallow it), and the flag is lowered in every case. *)
Theorem prompt_selects_then_restarts (w : World) (h0 : Host) :
  isZenMLReady (host w) = false ->
  respond (ShowInformationMessage promptQuestion promptItems) (host w) =
    (Returned (Some "Select Interpreter"), h0) ->
  let c1 := ExecuteCommand "python.setInterpreter" in
  let c2 := ExecuteCommand (serverId (zen w) +:+ ".restart") in
  let r1 := fst (respond c1 h0) in
  let r2 := fst (respond c2 (snd (respond c1 h0))) in
  fst (promptForPythonInterpreter w) = chainOutcome [(c1, r1); (c2, r2)]
  /\ omap executed (performed promptForPythonInterpreter w) =
       "python.setInterpreter" ::
       (if isReturned r1 then [serverId (zen w) +:+ ".restart"] else [])
  /\ interpreterSelectionInProgress (snd (promptForPythonInterpreter w)) = false.
Proof.
  intros Ready Hdialog. cbv zeta. unfold performed.
  unfold promptForPythonInterpreter, tryFinally, promptForPythonInterpreter_try,
    promptForPythonInterpreter_finally, setInterpreterSelectionInProgress.
  unfold_eff. rewrite !Ready. simpl. rewrite !Hdialog. simpl.
  destruct (decide (Some "Select Interpreter" = Some "Select Interpreter"))
    as [_|N]; [|contradiction]. simpl.
  destruct (respond (ExecuteCommand "python.setInterpreter") h0)
    as [[[]|e1] h1] eqn:E1; simpl.
  - destruct (respond (ExecuteCommand (serverId (zen w) +:+ ".restart")) h1)
      as [[[]|e2] h2] eqn:E2; simpl;
      (destruct (isZenMLReady h2) eqn:Ready2; simpl; rewrite ?Ready2; simpl;
       [next_reply|]; rewrite <- ?app_assoc; rewrite drop_app_length;
       repeat split; reflexivity).
  - destruct (isZenMLReady h1) eqn:Ready1; simpl; rewrite ?Ready1; simpl;
      [next_reply|]; rewrite <- ?app_assoc; rewrite drop_app_length;
      repeat split; reflexivity.
Qed.

(** X7.  When ZenML is not ready and the dialog itself throws,
    [promptForPythonInterpreter] throws the same exception after its
    cleanup: no command is executed, the flag is lowered, and since
    [userCancelled] is still false the function logs "Prompting again..."
    unless ZenML has become ready, in which case it shows the
    "installation found" notification. *)
Theorem prompt_dialog_failure (w : World) (e : Error) (h : Host) :
  isZenMLReady (host w) = false ->
  respond (ShowInformationMessage promptQuestion promptItems) (host w) =
    (Threw e, h) ->
  fst (promptForPythonInterpreter w) = Threw e
  /\ performed promptForPythonInterpreter w =
       [ Did (ShowInformationMessage promptQuestion promptItems) (Threw e);
         if isZenMLReady h then
           Did (ShowInformationMessage foundNotice [])
               (fst (respond (ShowInformationMessage foundNotice []) h))
         else Logged "ZenML is still not installed. Prompting again..." None ]
  /\ interpreterSelectionInProgress (snd (promptForPythonInterpreter w)) = false.
Proof.
  intros Ready Hdialog. unfold performed, foundNotice.
  unfold promptForPythonInterpreter, tryFinally, promptForPythonInterpreter_try,
    promptForPythonInterpreter_finally, setInterpreterSelectionInProgress.
  unfold_eff. rewrite !Ready. simpl. rewrite !Hdialog. simpl.
  destruct (isZenMLReady h) eqn:Ready'; simpl; rewrite ?Ready'; simpl;
    [next_reply|]; rewrite <- ?app_assoc; rewrite drop_app_length;
    repeat split; reflexivity.
Qed.

(** ** Beyond the claims: views and disposal *)

(** X8.  [viewsAndCommandsSetup] is raised by a setup that completes and by
    nothing else: after any call of [setupViewsAndCommands] the flag is
    true exactly when it was true before or the call returned.  A setup
    that throws part-way leaves it false, so the next call sets up again. *)
Theorem setup_flag_marks_completion (w : World) :
  viewsAndCommandsSetup (zen (snd (setupViewsAndCommands w))) =
    viewsAndCommandsSetup (zen w) || isReturned (fst (setupViewsAndCommands w)).
Proof.
  destruct (viewsAndCommandsSetup (zen w)) eqn:Flag.
  - unfold setupViewsAndCommands. unfold_eff. rewrite !Flag. simpl.
    next_reply. exact Flag.
  - unfold setupViewsAndCommands, dataProviders, registries, forEach,
      pushViewDisposable, setViewsAndCommandsSetup.
    unfold_eff. rewrite !Flag.
    repeat (next_reply;
            match goal with
            | r : Outcome _ |- _ => destruct r as [?|?]
            end; simpl; [| exact Flag]).
    reflexivity.
Qed.

(** X9.  Every tree view the editor hands back is tracked: after any call
    of [setupViewsAndCommands], completed or not, [viewDisposables] is what
    it was followed by the views returned by the [createTreeView] calls of
    that call, in order. *)
Theorem setup_tracks_created_views (w : World) :
  viewDisposables (zen (snd (setupViewsAndCommands w))) =
    viewDisposables (zen w) ++
    omap createdView (performed setupViewsAndCommands w).
Proof.
  unfold performed.
  destruct (viewsAndCommandsSetup (zen w)) eqn:Flag.
  - unfold setupViewsAndCommands. unfold_eff. rewrite !Flag. simpl.
    next_reply. rewrite <- ?app_assoc, drop_app_length. simpl.
    by rewrite app_nil_r.
  - unfold setupViewsAndCommands, dataProviders, registries, forEach,
      pushViewDisposable, setViewsAndCommandsSetup.
    unfold_eff. rewrite !Flag.
    repeat (next_reply;
            match goal with
            | r : Outcome _ |- _ => destruct r as [?|?]
            end; simpl;
            [| rewrite <- ?app_assoc, drop_app_length; simpl;
               rewrite <- ?app_assoc, ?app_nil_r; reflexivity]).
    rewrite <- ?app_assoc, drop_app_length; simpl.
    rewrite <- ?app_assoc. reflexivity.
Qed.

Lemma setup_again_run (w : World) :
  viewsAndCommandsSetup (zen w) = true ->
  setupViewsAndCommands w =
    (fst (respond RefreshUIComponents (host w)),
     advance (snd (respond RefreshUIComponents (host w)))
       [Logged "Views and commands have already been set up. Refreshing views..." None;
        Did RefreshUIComponents (fst (respond RefreshUIComponents (host w)))] w).
Proof.
  intros Hset.
  unfold setupViewsAndCommands, bind, gets; cbn beta iota. rewrite Hset.
  unfold consoleLog, modify, call. simpl.
  destruct (respond RefreshUIComponents (host w)) as [r h]. simpl.
  by rewrite advance_advance.
Qed.

(** X10.  [deactivateFeatures] does not lower [viewsAndCommandsSetup].
    After a setup has completed and the features have been deactivated, a
    new call of [setupViewsAndCommands] only logs and refreshes: it creates
    no view and runs no registry, and [viewDisposables] and
    [commandDisposables] stay empty. *)
Theorem setup_after_deactivation_restores_nothing (w : World) :
  viewsAndCommandsSetup (zen w) = true ->
  fst (deactivateFeatures w) = Returned tt ->
  let w1 := snd (deactivateFeatures w) in
  let w2 := snd (setupViewsAndCommands w1) in
  performed setupViewsAndCommands w1 =
    [ Logged "Views and commands have already been set up. Refreshing views..." None;
      Did RefreshUIComponents (fst (respond RefreshUIComponents (host w1))) ]
  /\ viewDisposables (zen w2) = []
  /\ commandDisposables (zen w2) = []
  /\ viewsAndCommandsSetup (zen w2) = true.
Proof.
  intros Hset Hdone w1 w2.
  destruct (deactivateFeatures_run w Hdone) as (h1 & h2 & R). cbv zeta in R.
  assert (Hset1 : viewsAndCommandsSetup (zen w1) = true).
  { subst w1. rewrite R. exact Hset. }
  pose proof (setup_again_run w1 Hset1) as S.
  split.
  { apply performed_extends. by rewrite S. }
  subst w2. rewrite S. simpl. subst w1. rewrite R. simpl. auto.
Qed.

(** X11.  Deactivating twice disposes nothing twice: after a
    [deactivateFeatures] that has returned, a second call finds both arrays
    empty, calls no [dispose], logs its line and returns. *)
Theorem deactivate_twice_disposes_once (w : World) :
  fst (deactivateFeatures w) = Returned tt ->
  let w1 := snd (deactivateFeatures w) in
  deactivateFeatures w1 =
    (Returned tt,
     advance (host w1)
       [Logged "Features deactivated due to unmet requirements." None] w1).
Proof.
  intros Hdone w1.
  destruct (deactivateFeatures_run w Hdone) as (h1 & h2 & R). cbv zeta in R.
  subst w1. rewrite R. reflexivity.
Qed.

Lemma forEach_dispose_throws (ds : list Disposable) (w w' : World) (e : Error) :
  forEach (fun d => call (Dispose d)) ds w = (Threw e, w') ->
  exists (before after : list Disposable) (d : Disposable) (h : Host),
    ds = before ++ d :: after /\
    w' = advance h (map (fun d => Did (Dispose d) (Returned tt)) before ++
                    [Did (Dispose d) (Threw e)]) w.
Proof.
  revert w. induction ds as [|d ds IH]; intros w.
  - discriminate.
  - simpl. rewrite bind_call_run.
    destruct (respond (Dispose d) (host w)) as [[[]|e1] h1].
    + intros Hrest. destruct (IH _ Hrest) as (before & after & d' & h & -> & ->).
      exists (d :: before), after, d', h. split; [reflexivity|].
      by rewrite advance_advance.
    + intros [= <- <-]. by exists [], ds, d, h1.
Qed.

(** X12.  When a [dispose] throws, [deactivateFeatures] throws the same
    exception at once: the entries after the failing one are not disposed,
    [viewDisposables] is left as it was, and [commandDisposables] is
    cleared only if the failing entry was a view (all commands were
    disposed by then). *)
Theorem deactivate_stops_at_failing_dispose (w : World) (e : Error) :
  fst (deactivateFeatures w) = Threw e ->
  let z := zen w in
  let w' := snd (deactivateFeatures w) in
  exists (before after : list Disposable) (d : Disposable),
    commandDisposables z ++ viewDisposables z = before ++ d :: after
    /\ performed deactivateFeatures w =
         map (fun d => Did (Dispose d) (Returned tt)) before ++
         [Did (Dispose d) (Threw e)]
    /\ viewDisposables (zen w') = viewDisposables z
    /\ commandDisposables (zen w') =
         (if (length before <? length (commandDisposables z))%nat
          then commandDisposables z else [])
    /\ viewsAndCommandsSetup (zen w') = viewsAndCommandsSetup z.
Proof.
  intros Hthrown z w'. subst w'.
  destruct (deactivateFeatures w) as [o w'] eqn:Run. simpl in Hthrown. subst o.
  unfold performed. rewrite Run. simpl.
  unfold deactivateFeatures in Run.
  unfold bind at 1, gets at 1 in Run. cbn beta iota in Run. fold z in Run.
  unfold bind at 1 in Run.
  destruct (forEach (fun d => call (Dispose d)) (commandDisposables z) w)
    as [[[]|e1] w1] eqn:F1.
  - destruct (forEach_dispose_run (commandDisposables z) w) as [h1 E1];
      [by rewrite F1|].
    rewrite E1 in F1. injection F1 as <-.
    unfold setCommandDisposables in Run.
    unfold bind at 1, modify at 1 in Run. cbn beta iota in Run.
    unfold bind at 1, gets at 1 in Run. cbn beta iota in Run.
    unfold bind at 1 in Run. simpl in Run. fold z in Run.
    match type of Run with
    | context [forEach ?f ?l ?x] =>
        destruct (forEach f l x) as [[[]|e2] w2] eqn:F2
    end.
    + exfalso. revert Run. unfold setViewDisposables, bind, modify, consoleLog.
      discriminate.
    + injection Run as <- <-.
      destruct (forEach_dispose_throws _ _ _ _ F2)
        as (before & after & d & h & Hsplit & ->).
      exists (commandDisposables z ++ before), after, d.
      split; [by rewrite Hsplit, <- app_assoc|].
      simpl. rewrite <- !app_assoc, drop_app_length, map_app, <- app_assoc.
      split; [reflexivity|]. split; [reflexivity|].
      split; [|reflexivity].
      rewrite length_app.
      destruct (Nat.ltb_spec (length (commandDisposables z) + length before)
                  (length (commandDisposables z))); [lia | reflexivity].
  - injection Run as <- <-.
    destruct (forEach_dispose_throws _ _ _ _ F1)
      as (before & after & d & h & Hsplit & ->).
    exists before, (after ++ viewDisposables z), d.
    split; [by rewrite Hsplit, <- app_assoc|].
    simpl. rewrite drop_app_length.
    split; [reflexivity|]. split; [reflexivity|].
    split; [|reflexivity].
    rewrite Hsplit, length_app. simpl.
    destruct (Nat.ltb_spec (length before) (length before + S (length after)));
      [by rewrite <- Hsplit | lia].
Qed.


(** ** Beyond the claims: activation *)

Context {startup : StartupCollaborators}.

Ltac next_startup_reply :=
  match goal with
  | |- context [respondStartup ?c ?h] =>
      let r := fresh "r" in
      let h' := fresh "h" in
      let E := fresh "E" in
      destruct (respondStartup c h) as [r h'] eqn:E; simpl in *
  end.

Lemma lift_run {A : Type} (m : Eff A) (s : Session) :
  lift m s =
    (fst (m (world s)),
     {| world := snd (m (world s));
        journal := journal s ++ map Core (performed m (world s)) |}).
Proof. unfold lift. by destruct (m (world s)). Qed.

Lemma lift_call_run {T : Type} (c : HostCall T) (s : Session) :
  lift (call c) s =
    (fst (respond c (host (world s))),
     {| world := advance (snd (respond c (host (world s))))
                         [Did c (fst (respond c (host (world s))))] (world s);
        journal := journal s ++
                   [Core (Did c (fst (respond c (host (world s)))))] |}).
Proof.
  rewrite lift_run. unfold performed, call.
  destruct (respond c (host (world s))) as [r h]. simpl.
  by rewrite drop_app_length.
Qed.

Lemma performed_setImmediate (w : World) :
  performed deferredInitialize w = [].
Proof. unfold performed. simpl. apply drop_all. Qed.

Lemma subscribeToCoreEvents_frame (w : World) :
  immediates (snd (subscribeToCoreEvents w)) = immediates w /\
  interpreterSelectionInProgress (snd (subscribeToCoreEvents w)) =
    interpreterSelectionInProgress w.
Proof.
  unfold subscribeToCoreEvents, registerCommand. unfold_eff.
  repeat (next_reply;
          match goal with
          | r : Outcome _ |- _ => destruct r as [?|?]
          end; simpl; [| split; reflexivity]).
  split; reflexivity.
Qed.

(** A completed [activate], step by step. *)
Lemma activate_run (ctx : ExtensionContext) (ls : LSClient) (s : Session) :
  fst (activate ctx ls s) = Returned tt ->
  let s' := snd (activate ctx ls s) in
  let z := zen (world s) in
  exists (packageJson content json : string) (config : PackageJson)
         (channel : LogOutputChannel)
         (logger l1 l2 d1 d2 d3 d4 d5 d6 : Disposable),
    let sname := name (serverInfo config) in
    let sid := module (serverInfo config) in
    journal s' = journal s ++
      [ Startup (PathJoin [EXTENSION_ROOT_DIR; "package.json"])
                (Returned packageJson);
        Startup (ReadFileSync packageJson) (Returned content);
        Startup (JsonParse content) (Returned config);
        Startup (CreateOutputChannel sname) (Returned channel);
        Startup (RegisterLogger channel) (Returned logger);
        Startup (ChannelOnDidChangeLogLevel channel ChannelLevelListener)
                (Returned l1);
        Startup (EnvOnDidChangeLogLevel EnvLevelListener) (Returned l2);
        Core (Did (TraceLog ("Name: " +:+ sname)) (Returned tt));
        Core (Did (TraceLog ("Module: " +:+ sid)) (Returned tt));
        Startup (JsonStringify {| name := sname; module := sid |})
                (Returned json);
        Startup (TraceVerbose ("Full Server Info: " +:+ json)) (Returned tt);
        Core (Did (OnDidChangePythonInterpreter InterpreterListener)
                  (Returned d1));
        Core (Did (RegisterCommand (sid +:+ ".showLogs") ShowLogsHandler)
                  (Returned d2));
        Core (Did (OnDidChangeConfiguration ConfigurationListener)
                  (Returned d3));
        Core (Did (RegisterCommand (sid +:+ ".restart") RestartHandler)
                  (Returned d4));
        Core (Did (RegisterCommand "zenml.promptForInterpreter"
                     PromptForInterpreterHandler) (Returned d5));
        Core (Did (RegisterLanguageStatusItem sid sname (sid +:+ ".showLogs"))
                  (Returned d6)) ]
    /\ zen (world s') =
         {| context := ctx;
            commandDisposables := commandDisposables z;
            viewDisposables := viewDisposables z;
            lsClient := ls;
            outputChannel := channel;
            serverId := sid;
            serverName := sname;
            viewsAndCommandsSetup := viewsAndCommandsSetup z |}
    /\ subscriptions (world s') = subscriptions (world s) ++
         [channelDisposable channel; logger; l1; l2; d1; d2; d3; d4; d5; d6]
    /\ commands (world s') =
         <["zenml.promptForInterpreter" := PromptForInterpreterHandler]>
           (<[sid +:+ ".restart" := RestartHandler]>
              (<[sid +:+ ".showLogs" := ShowLogsHandler]> (commands (world s))))
    /\ immediates (world s') = immediates (world s) ++ [DeferredInitialization]
    /\ interpreterSelectionInProgress (world s') =
         interpreterSelectionInProgress (world s).
Proof.
  cbv zeta.
  unfold activate, loadServerDefaults, setupLoggingAndTrace.
  unfold bootBind, bootRet, writes, reads, pushSubscriptions, boot.
  simpl.
  do 7 (next_startup_reply;
        match goal with
        | r : Outcome _ |- _ => destruct r as [?|?]
        end; simpl; [| discriminate]).
  do 2 (rewrite lift_call_run; simpl; next_reply;
        match goal with
        | r : Outcome _ |- _ => destruct r as [[]|?]
        end; simpl; [| discriminate]).
  do 2 (next_startup_reply;
        match goal with
        | r : Outcome _ |- _ => destruct r as [?|?]
        end; simpl; [| discriminate]).
  rewrite lift_run. simpl.
  match goal with
  | |- context [subscribeToCoreEvents ?W] =>
      destruct (fst (subscribeToCoreEvents W)) as [[]|?] eqn:Sub;
      [ destruct (subscribeToCoreEvents_run W Sub)
          as (d1 & d2 & d3 & d4 & d5 & d6 & Htr & Hsubs & Hcmds & Hzen);
        rewrite (performed_extends _ _ _ Htr);
        destruct (subscribeToCoreEvents_frame W) as [Himm Hflag]
      | discriminate ]
  end.
  rewrite lift_run, performed_setImmediate. simpl. intros _.
  cbv zeta in Hsubs, Hcmds, Hzen. simpl in Hsubs, Hcmds, Hzen.
  repeat match goal with u : unit |- _ => destruct u end.
  eexists _, _, _, _, _, _, _, _, _, _, _, _, _, _.
  rewrite Hsubs, Hcmds, Hzen, Himm, Hflag. rewrite <- !app_assoc. simpl.
  rewrite ?app_nil_r.
  repeat split; reflexivity.
Qed.

(** X13.  An [activate] that completes has, in this order: read and parsed
    [package.json] under [EXTENSION_ROOT_DIR]; created the output channel
    named after [serverInfo.name]; registered the logger and the two
    log-level listeners; traced the name and the module; made the six
    registrations of [subscribeToCoreEvents].  It has stored its two
    arguments, [serverInfo.name] as [serverName], [serverInfo.module] as
    [serverId] and the new channel as [outputChannel]; it has pushed ten
    disposables onto [context.subscriptions], the channel first; and it has
    queued the deferred initialization once. *)
Theorem activate_wires_in_source_order (ctx : ExtensionContext) (ls : LSClient)
    (s : Session) :
  fst (activate ctx ls s) = Returned tt ->
  let s' := snd (activate ctx ls s) in
  let z := zen (world s) in
  exists (packageJson content json : string) (config : PackageJson)
         (channel : LogOutputChannel)
         (logger l1 l2 d1 d2 d3 d4 d5 d6 : Disposable),
    let sname := name (serverInfo config) in
    let sid := module (serverInfo config) in
    journal s' = journal s ++
      [ Startup (PathJoin [EXTENSION_ROOT_DIR; "package.json"])
                (Returned packageJson);
        Startup (ReadFileSync packageJson) (Returned content);
        Startup (JsonParse content) (Returned config);
        Startup (CreateOutputChannel sname) (Returned channel);
        Startup (RegisterLogger channel) (Returned logger);
        Startup (ChannelOnDidChangeLogLevel channel ChannelLevelListener)
                (Returned l1);
        Startup (EnvOnDidChangeLogLevel EnvLevelListener) (Returned l2);
        Core (Did (TraceLog ("Name: " +:+ sname)) (Returned tt));
        Core (Did (TraceLog ("Module: " +:+ sid)) (Returned tt));
        Startup (JsonStringify {| name := sname; module := sid |})
                (Returned json);
        Startup (TraceVerbose ("Full Server Info: " +:+ json)) (Returned tt);
        Core (Did (OnDidChangePythonInterpreter InterpreterListener)
                  (Returned d1));
        Core (Did (RegisterCommand (sid +:+ ".showLogs") ShowLogsHandler)
                  (Returned d2));
        Core (Did (OnDidChangeConfiguration ConfigurationListener)
                  (Returned d3));
        Core (Did (RegisterCommand (sid +:+ ".restart") RestartHandler)
                  (Returned d4));
        Core (Did (RegisterCommand "zenml.promptForInterpreter"
                     PromptForInterpreterHandler) (Returned d5));
        Core (Did (RegisterLanguageStatusItem sid sname (sid +:+ ".showLogs"))
                  (Returned d6)) ]
    /\ zen (world s') =
         {| context := ctx;
            commandDisposables := commandDisposables z;
            viewDisposables := viewDisposables z;
            lsClient := ls;
            outputChannel := channel;
            serverId := sid;
            serverName := sname;
            viewsAndCommandsSetup := viewsAndCommandsSetup z |}
    /\ subscriptions (world s') = subscriptions (world s) ++
         [channelDisposable channel; logger; l1; l2; d1; d2; d3; d4; d5; d6]
    /\ commands (world s') =
         <["zenml.promptForInterpreter" := PromptForInterpreterHandler]>
           (<[sid +:+ ".restart" := RestartHandler]>
              (<[sid +:+ ".showLogs" := ShowLogsHandler]> (commands (world s))))
    /\ immediates (world s') = immediates (world s) ++ [DeferredInitialization]
    /\ interpreterSelectionInProgress (world s') =
         interpreterSelectionInProgress (world s).
Proof. exact (activate_run ctx ls s). Qed.

(** X14.  After an [activate] that completes, running
    [`${serverInfo.module}.restart`] calls [runServer] with the module and
    the name read from [package.json], the output channel created during
    the activation and the [lsClient] given to [activate], and does nothing
    else. *)
Theorem restart_after_activation (ctx : ExtensionContext) (ls : LSClient)
    (s : Session) :
  fst (activate ctx ls s) = Returned tt ->
  let s' := snd (activate ctx ls s) in
  exists (content : string) (config : PackageJson) (channel : LogOutputChannel),
    let sname := name (serverInfo config) in
    let sid := module (serverInfo config) in
    let c := RunServer sid sname channel ls in
    In (Startup (JsonParse content) (Returned config)) (journal s')
    /\ In (Startup (CreateOutputChannel sname) (Returned channel)) (journal s')
    /\ runCommand (sid +:+ ".restart") (world s') =
         (fst (respond c (host (world s'))),
          advance (snd (respond c (host (world s'))))
            [Did c (fst (respond c (host (world s'))))] (world s')).
Proof.
  intros Hdone s'.
  destruct (activate_run ctx ls s Hdone)
    as (pkg & content & json & config & channel & logger & l1 & l2 &
        d1 & d2 & d3 & d4 & d5 & d6 & Hj & Hz & _ & Hc & _).
  cbv zeta in Hj, Hz, Hc. fold s' in Hj, Hz, Hc.
  exists content, config, channel. cbv zeta.
  split; [rewrite Hj; apply in_or_app; right; simpl; tauto|].
  split; [rewrite Hj; apply in_or_app; right; simpl; tauto|].
  unfold runCommand. rewrite Hc.
  rewrite lookup_insert_ne
    by (intros E; symmetry in E; by apply restart_is_not_the_prompt_command in E).
  rewrite lookup_insert_eq. simpl. unfold restart.
  rewrite runServer_run. cbv zeta. rewrite Hz. reflexivity.
Qed.

Lemma subscribe_is_quiet (w : World) :
  filter isServerStart (performed subscribeToCoreEvents w) = [].
Proof.
  unfold performed, subscribeToCoreEvents, registerCommand. unfold_eff.
  repeat (next_reply;
          match goal with
          | r : Outcome _ |- _ => destruct r as [?|?]
          end; simpl;
          [| rewrite <- ?app_assoc, drop_app_length; reflexivity]).
  rewrite <- ?app_assoc, drop_app_length. reflexivity.
Qed.

Lemma filter_startsServer_Core (l : list Action) :
  filter startsServer (map Core l) = map Core (filter isServerStart l).
Proof.
  induction l as [|a l IH]; [reflexivity|].
  simpl. rewrite !filter_cons. simpl.
  destruct (isServerStart a); simpl; by rewrite IH.
Qed.

(** X15.  [activate] itself never asks for the interpreter, never listens
    to the Python extension and never starts the language server, whether
    it completes or throws; that work is left to the deferred callback,
    which is queued exactly when the activation completes. *)
Theorem activate_defers_server_start (ctx : ExtensionContext) (ls : LSClient)
    (s : Session) :
  filter startsServer (recorded (activate ctx ls) s) = []
  /\ immediates (world (snd (activate ctx ls s))) =
       immediates (world s) ++
       (if isReturned (fst (activate ctx ls s))
        then [DeferredInitialization] else []).
Proof.
  unfold recorded.
  unfold activate, loadServerDefaults, setupLoggingAndTrace.
  unfold bootBind, bootRet, writes, reads, pushSubscriptions, boot.
  simpl.
  do 7 (next_startup_reply;
        match goal with
        | r : Outcome _ |- _ => destruct r as [?|?]
        end; simpl;
        [| rewrite <- ?app_assoc, drop_app_length, ?app_nil_r;
           split; reflexivity]).
  do 2 (rewrite lift_call_run; simpl; next_reply;
        match goal with
        | r : Outcome _ |- _ => destruct r as [[]|?]
        end; simpl;
        [| rewrite <- ?app_assoc, drop_app_length, ?app_nil_r;
           split; reflexivity]).
  do 2 (next_startup_reply;
        match goal with
        | r : Outcome _ |- _ => destruct r as [?|?]
        end; simpl;
        [| rewrite <- ?app_assoc, drop_app_length, ?app_nil_r;
           split; reflexivity]).
  rewrite lift_run. simpl.
  match goal with
  | |- context [subscribeToCoreEvents ?W] =>
      pose proof (subscribe_is_quiet W) as Hquiet;
      destruct (subscribeToCoreEvents_frame W) as [Himm _];
      destruct (fst (subscribeToCoreEvents W)) as [[]|?];
      set (P := performed subscribeToCoreEvents W) in *
  end; simpl.
  - rewrite performed_setImmediate. simpl.
    rewrite Himm. simpl. split; [|reflexivity].
    rewrite <- ?app_assoc, drop_app_length, !filter_app.
    rewrite filter_startsServer_Core, Hquiet. reflexivity.
  - rewrite Himm. simpl. rewrite app_nil_r. split; [|reflexivity].
    rewrite <- ?app_assoc, drop_app_length, !filter_app.
    rewrite filter_startsServer_Core, Hquiet. reflexivity.
Qed.

(** X16.  When [loadServerDefaults] throws (joining the path, reading
    [package.json] or parsing it), [activate] throws the same exception and
    has done nothing beyond those calls: no output channel, no
    registration, nothing pushed onto [context.subscriptions], no deferred
    callback.  Only [context] and [lsClient], assigned first, have
    changed. *)
Theorem activate_stops_when_package_json_fails (ctx : ExtensionContext)
    (ls : LSClient) (s : Session) (e : Error) :
  fst (loadServerDefaults s) = Threw e ->
  let s' := snd (activate ctx ls s) in
  fst (activate ctx ls s) = Threw e
  /\ recorded (activate ctx ls) s = recorded loadServerDefaults s
  /\ zen (world s') = setLsClient ls (setContext ctx (zen (world s)))
  /\ subscriptions (world s') = subscriptions (world s)
  /\ commands (world s') = commands (world s)
  /\ immediates (world s') = immediates (world s).
Proof.
  cbv zeta. unfold recorded.
  unfold activate, loadServerDefaults.
  unfold bootBind, bootRet, writes, reads, boot. simpl.
  do 3 (next_startup_reply;
        match goal with
        | r : Outcome _ |- _ => destruct r as [?|?]
        end; simpl; [| intros [= ->]; repeat split; reflexivity]).
  discriminate.
Qed.

(** X17.  A log-level change, on the output channel or on the editor, asks
    for the language client and, when there is one, sets its trace level to
    [getLSClientTraceLevel(channel level, editor level)]: the changed level
    comes from the event and the other one is read when the listener
    starts.  Without a language client nothing is set and the listener
    returns.  No field of the extension changes. *)
Theorem log_level_change_sets_trace (l : LogLevelListener) (e : LogLevel.t)
    (s : Session) :
  let h0 := host (world s) in
  let level :=
    match l with
    | ChannelLevelListener => getLSClientTraceLevel e (envLogLevel h0)
    | EnvLevelListener =>
        getLSClientTraceLevel
          (channelLogLevel h0 (outputChannel (zen (world s)))) e
    end in
  let found := respondStartup GetLanguageClient h0 in
  let s' := snd (runLogLevelListener l e s) in
  recorded (runLogLevelListener l e) s =
    Startup GetLanguageClient (fst found) ::
    match fst found with
    | Returned (Some client) =>
        [Startup (SetTrace client level)
                 (fst (respondStartup (SetTrace client level) (snd found)))]
    | Returned None => []
    | Threw _ => []
    end
  /\ fst (runLogLevelListener l e s) =
       match fst found with
       | Returned (Some client) =>
           fst (respondStartup (SetTrace client level) (snd found))
       | Returned None => Returned tt
       | Threw x => Threw x
       end
  /\ zen (world s') = zen (world s)
  /\ subscriptions (world s') = subscriptions (world s)
  /\ commands (world s') = commands (world s).
Proof.
  cbv zeta. unfold recorded.
  destruct l; unfold runLogLevelListener, onChannelLogLevelChanged,
    onEnvLogLevelChanged, changeLogLevel, bootBind, bootRet, reads, boot;
    simpl;
    (destruct (respondStartup GetLanguageClient (host (world s)))
       as [[[client|]|x] h1]; simpl;
     [ next_startup_reply | | ];
     rewrite <- ?app_assoc, drop_app_length; repeat split; reflexivity).
Qed.

End Properties.

(** ** Runs at the desk *)

Example subscribed_commands :
  commands subscribed !! "zenml-python.restart" = Some RestartHandler /\
  commands subscribed !! "zenml-python.showLogs" = Some ShowLogsHandler /\
  commands subscribed !! "python.setInterpreter" = None.
Proof. repeat split; vm_compute; reflexivity. Qed.

Example prompt_at_the_office :
  performed promptForPythonInterpreter (fresh office (atDesk false)) =
    [ Did (ShowInformationMessage promptQuestion promptItems)
          (Returned (Some "Select Interpreter"));
      Did (ExecuteCommand "python.setInterpreter") (Returned tt);
      Logged "Interpreter selection completed." None;
      Did (ExecuteCommand "zenml-python.restart") (Returned tt);
      Logged "ZenML is still not installed. Prompting again..." None ].
Proof. reflexivity. Qed.

Example prompt_when_commands_fail :
  promptForPythonInterpreter (fresh brokenOffice (atDesk false)) =
    (Threw (JsError "rejected"),
     @advance brokenOffice (atDesk false)
       [ Did (ShowInformationMessage promptQuestion promptItems)
             (Returned (Some "Select Interpreter"));
         Did (ExecuteCommand "python.setInterpreter")
             (Threw (JsError "rejected"));
         Logged "ZenML is still not installed. Prompting again..." None ]
       (fresh brokenOffice (atDesk false))).
Proof. reflexivity. Qed.

Example configuration_restart_example :
  let e := {| affectsConfiguration := fun s => String.eqb s "zenml-python" |} in
  performed (onConfigurationChanged e) (fresh office (atDesk false)) =
    [ Logged "Configuration changed, restarting LSP server..." (Some e);
      Did (RunServer "zenml-python" "ZenML" (OutputChannel 0) (LanguageClient 0))
          (Returned tt) ].
Proof. reflexivity. Qed.

(** C2, as stated, fails: at the office the interpreter listener writes the
    two interpreter settings before it restarts the server. *)
Lemma interpreter_listener_writes_settings :
  performed (handleEvent (PythonInterpreterChanged python3))
            (fresh office (atDesk false)) =
    [ Logged "Interpreter changed, restarting LSP server..." None;
      Did (UpdateDefaultPythonInterpreterPath (Some "/usr/bin/python3"))
          (Returned tt);
      Did (UpdateWorkspaceInterpreterSettings (Some "/usr/bin/python3"))
          (Returned tt);
      Did (RunServer "zenml-python" "ZenML" (OutputChannel 0) (LanguageClient 0))
          (Returned tt) ]
  /\ forallb (fun a => isLogged a || isRunServer a)
       (performed (handleEvent (PythonInterpreterChanged python3))
                  (fresh office (atDesk false))) = false.
Proof. split; reflexivity. Qed.

(** C3, as stated, fails: when the user settings cannot be written, an
    interpreter change with a [path] ends at the first update and the
    server is not restarted. *)
Lemma interpreter_change_without_restart :
  path python3 = Some ["/usr/bin/python3"]
  /\ onInterpreterChanged python3 (fresh lockedOffice (atDesk false)) =
       (Threw (JsError "rejected"),
        @advance lockedOffice (atDesk false)
          [ Logged "Interpreter changed, restarting LSP server..." None;
            Did (UpdateDefaultPythonInterpreterPath (Some "/usr/bin/python3"))
                (Threw (JsError "rejected")) ]
          (fresh lockedOffice (atDesk false)))
  /\ existsb isRunServer
       (performed (onInterpreterChanged python3)
                  (fresh lockedOffice (atDesk false))) = false.
Proof. repeat split; reflexivity. Qed.

(** C4, as stated, fails: when there are no interpreter details and
    [initializePython] throws, the deferred callback ends without calling
    [runServer]. *)
Lemma deferred_initialization_without_runServer :
  deferredInitialization (fresh bareOffice (atDesk false)) =
    (Threw (JsError "rejected"),
     @advance bareOffice (atDesk false)
       [ Did GetInterpreterDetails (Returned noInterpreter);
         Did (TraceLog "Setting up Python extension listener.") (Returned tt);
         Did (InitializePython []) (Threw (JsError "rejected")) ]
       (fresh bareOffice (atDesk false)))
  /\ existsb isRunServer
       (performed deferredInitialization (fresh bareOffice (atDesk false)))
     = false.
Proof. split; reflexivity. Qed.



(** C6 at the office: the first setup, from the fresh extension. *)
Lemma first_setup_at_the_office :
  viewsAndCommandsSetup (zen (fresh office (atDesk true))) = false
  /\ fst (setupViewsAndCommands (fresh office (atDesk true))) = Returned tt
  /\ exists v1 v2 v3 v4 : Disposable,
       trace setUp = trace (fresh office (atDesk true)) ++
         [ Did StatusBarGetInstance (Returned tt);
           Did (CreateTreeView "zenmlServerView" ServerDataProvider) (Returned v1);
           Did (CreateTreeView "zenmlStackView" StackDataProvider) (Returned v2);
           Did (CreateTreeView "zenmlPipelineView" PipelineDataProvider) (Returned v3);
           Did (CreateTreeView "zenmlEnvironmentView" EnvironmentDataProvider) (Returned v4);
           Did (RegisterCommands registerServerCommands (ContextHandle 0)) (Returned tt);
           Did (RegisterCommands registerStackCommands (ContextHandle 0)) (Returned tt);
           Did (RegisterCommands registerPipelineCommands (ContextHandle 0)) (Returned tt);
           Did RefreshUIComponents (Returned tt) ]
       /\ viewDisposables (zen setUp) = [] ++ [v1; v2; v3; v4]
       /\ viewsAndCommandsSetup (zen setUp) = true
       /\ context (zen setUp) = ContextHandle 0
       /\ commandDisposables (zen setUp) = []
       /\ lsClient (zen setUp) = LanguageClient 0
       /\ outputChannel (zen setUp) = OutputChannel 0
       /\ serverId (zen setUp) = "zenml-python"
       /\ serverName (zen setUp) = "ZenML"
       /\ interpreterSelectionInProgress setUp = false
       /\ subscriptions setUp = []
       /\ commands setUp = ∅
       /\ immediates setUp = [].
Proof.
  split; [reflexivity|]. split; [reflexivity|].
  apply (first_setup_registers_everything (fresh office (atDesk true)));
    reflexivity.
Defined.

(** C7 at the office: the restart command of the subscribed extension. *)
Lemma restart_command_at_the_office :
  commands subscribed !! "zenml-python.restart" = Some RestartHandler
  /\ runCommand "zenml-python.restart" subscribed =
       (Returned tt,
        advance (host subscribed)
          [ Did (RunServer "zenml-python" "ZenML" (OutputChannel 0)
                   (LanguageClient 0)) (Returned tt) ]
          subscribed).
Proof.
  split; [vm_compute; reflexivity|].
  apply (restart_command_forwards subscribed). vm_compute; reflexivity.
Defined.

(** C8 at the office: a second setup. *)
Lemma setup_again_at_the_office :
  viewsAndCommandsSetup (zen setUp) = true
  /\ setupViewsAndCommands setUp =
       (Returned tt,
        advance (host setUp)
          [ Logged "Views and commands have already been set up. Refreshing views..." None;
            Did RefreshUIComponents (Returned tt) ]
          setUp)
  /\ sameExtension setUp (snd (setupViewsAndCommands setUp))
  /\ filter (fun a => negb (isLogged a)) (performed setupViewsAndCommands setUp)
     = [Did RefreshUIComponents (Returned tt)].
Proof.
  split; [reflexivity|].
  apply (setup_again_only_refreshes setUp). reflexivity.
Defined.


(** ** More runs at the desk *)

(** X1 at the office. *)
Lemma subscribe_at_the_office :
  fst (subscribeToCoreEvents (fresh office (atDesk false))) = Returned tt
  /\ exists d1 d2 d3 d4 d5 d6 : Disposable,
       trace subscribed = trace (fresh office (atDesk false)) ++
         [ Did (OnDidChangePythonInterpreter InterpreterListener) (Returned d1);
           Did (RegisterCommand ("zenml-python" +:+ ".showLogs") ShowLogsHandler)
               (Returned d2);
           Did (OnDidChangeConfiguration ConfigurationListener) (Returned d3);
           Did (RegisterCommand ("zenml-python" +:+ ".restart") RestartHandler)
               (Returned d4);
           Did (RegisterCommand "zenml.promptForInterpreter"
                  PromptForInterpreterHandler) (Returned d5);
           Did (RegisterLanguageStatusItem "zenml-python" "ZenML"
                  ("zenml-python" +:+ ".showLogs")) (Returned d6) ]
       /\ subscriptions subscribed = [] ++ [d1; d2; d3; d4; d5; d6]
       /\ commands subscribed =
            <["zenml.promptForInterpreter" := PromptForInterpreterHandler]>
              (<["zenml-python" +:+ ".restart" := RestartHandler]>
                 (<["zenml-python" +:+ ".showLogs" := ShowLogsHandler]> ∅))
       /\ zen subscribed = zenml.
Proof.
  split; [reflexivity|].
  apply (subscribe_registers_in_source_order (fresh office (atDesk false))).
  reflexivity.
Defined.

(** X2 where the status item is refused: five registrations made, none
    kept. *)
Lemma subscribe_at_the_cramped_office :
  fst (subscribeToCoreEvents (fresh crampedOffice (atDesk false))) =
    Threw (JsError "rejected")
  /\ subscriptions (snd (subscribeToCoreEvents (fresh crampedOffice (atDesk false))))
     = []
  /\ zen (snd (subscribeToCoreEvents (fresh crampedOffice (atDesk false))))
     = zenml
  /\ exists c : HostCall Disposable,
       last (performed subscribeToCoreEvents (fresh crampedOffice (atDesk false)))
       = Some (Did c (Threw (JsError "rejected"))).
Proof.
  split; [reflexivity|].
  apply (subscribe_failure_pushes_nothing (fresh crampedOffice (atDesk false))).
  reflexivity.
Defined.

(** X3 at the office. *)
Lemma showLogs_at_the_office :
  fst (subscribeToCoreEvents (fresh office (atDesk false))) = Returned tt
  /\ runCommand ("zenml-python" +:+ ".showLogs") subscribed =
       (Returned tt,
        advance (host subscribed)
          [Did (OutputChannelShow (OutputChannel 0)) (Returned tt)] subscribed).
Proof.
  split; [reflexivity|].
  apply (showLogs_command_shows_channel (fresh office (atDesk false))).
  reflexivity.
Defined.

(** X5 where the user closes the dialog. *)
Lemma prompt_closed_at_the_quiet_office :
  isZenMLReady (host (fresh quietOffice (atDesk false))) = false
  /\ None <> Some "Select Interpreter"
  /\ fst (promptForPythonInterpreter (fresh quietOffice (atDesk false)))
     = Returned tt
  /\ performed promptForPythonInterpreter (fresh quietOffice (atDesk false)) =
       [ Did (ShowInformationMessage promptQuestion promptItems) (Returned None);
         Logged "Interpreter selection cancelled." None;
         Did (ShowInformationMessage cancelledNotice []) (Returned None) ]
  /\ interpreterSelectionInProgress
       (snd (promptForPythonInterpreter (fresh quietOffice (atDesk false))))
     = false.
Proof.
  split; [reflexivity|]. split; [discriminate|].
  apply (prompt_cancelled (fresh quietOffice (atDesk false)) None (atDesk false));
    [reflexivity | reflexivity | discriminate].
Defined.

(** X6 where the second command cannot run. *)
Lemma prompt_selected_at_the_broken_office :
  isZenMLReady (host (fresh brokenOffice (atDesk false))) = false
  /\ fst (promptForPythonInterpreter (fresh brokenOffice (atDesk false))) =
       Threw (JsError "rejected")
  /\ omap executed
       (performed promptForPythonInterpreter (fresh brokenOffice (atDesk false)))
     = ["python.setInterpreter"]
  /\ interpreterSelectionInProgress
       (snd (promptForPythonInterpreter (fresh brokenOffice (atDesk false))))
     = false.
Proof.
  split; [reflexivity|].
  apply (prompt_selects_then_restarts (fresh brokenOffice (atDesk false))
           (atDesk false)); reflexivity.
Defined.

(** X7 where no dialog can be shown. *)
Lemma prompt_at_the_headless_office :
  isZenMLReady (host (fresh headlessOffice (atDesk false))) = false
  /\ fst (promptForPythonInterpreter (fresh headlessOffice (atDesk false))) =
       Threw (JsError "rejected")
  /\ performed promptForPythonInterpreter (fresh headlessOffice (atDesk false)) =
       [ Did (ShowInformationMessage promptQuestion promptItems)
             (Threw (JsError "rejected"));
         Logged "ZenML is still not installed. Prompting again..." None ]
  /\ interpreterSelectionInProgress
       (snd (promptForPythonInterpreter (fresh headlessOffice (atDesk false))))
     = false.
Proof.
  split; [reflexivity|].
  apply (prompt_dialog_failure (fresh headlessOffice (atDesk false))
           (JsError "rejected") (atDesk false)); reflexivity.
Defined.

(** X10 at the office. *)
Lemma setup_after_deactivation_at_the_office :
  viewsAndCommandsSetup (zen loaded) = true
  /\ fst (deactivateFeatures loaded) = Returned tt
  /\ performed setupViewsAndCommands (snd (deactivateFeatures loaded)) =
       [ Logged "Views and commands have already been set up. Refreshing views..." None;
         Did RefreshUIComponents (Returned tt) ]
  /\ viewDisposables
       (zen (snd (setupViewsAndCommands (snd (deactivateFeatures loaded))))) = []
  /\ commandDisposables
       (zen (snd (setupViewsAndCommands (snd (deactivateFeatures loaded))))) = []
  /\ viewsAndCommandsSetup
       (zen (snd (setupViewsAndCommands (snd (deactivateFeatures loaded))))) = true.
Proof.
  split; [reflexivity|]. split; [reflexivity|].
  apply (setup_after_deactivation_restores_nothing loaded); reflexivity.
Defined.

(** X11 at the office. *)
Lemma deactivate_twice_at_the_office :
  fst (deactivateFeatures loaded) = Returned tt
  /\ deactivateFeatures (snd (deactivateFeatures loaded)) =
       (Returned tt,
        advance (host (snd (deactivateFeatures loaded)))
          [Logged "Features deactivated due to unmet requirements." None]
          (snd (deactivateFeatures loaded))).
Proof.
  split; [reflexivity|].
  apply (deactivate_twice_disposes_once loaded). reflexivity.
Defined.

(** X12 where the second command disposable is stuck. *)
Lemma deactivate_at_the_sticky_office :
  fst (deactivateFeatures loadedSticky) = Threw (JsError "rejected")
  /\ exists (before after : list Disposable) (d : Disposable),
       [Handle 1; Handle 2] ++ [Handle 3] = before ++ d :: after
       /\ performed deactivateFeatures loadedSticky =
            map (fun d => Did (Dispose d) (Returned tt)) before ++
            [Did (Dispose d) (Threw (JsError "rejected"))]
       /\ viewDisposables (zen (snd (deactivateFeatures loadedSticky)))
          = [Handle 3]
       /\ commandDisposables (zen (snd (deactivateFeatures loadedSticky))) =
            (if (length before <? length [Handle 1; Handle 2])%nat
             then [Handle 1; Handle 2] else [])
       /\ viewsAndCommandsSetup (zen (snd (deactivateFeatures loadedSticky)))
          = true.
Proof.
  split; [reflexivity|].
  apply (deactivate_stops_at_failing_dispose loadedSticky (JsError "rejected")).
  reflexivity.
Defined.

(** X13 for the installed extension. *)
Lemma activate_installed :
  let s' := snd (@activate office (installed None) (ContextHandle 7)
                   (LanguageClient 3) cold) in
  fst (@activate office (installed None) (ContextHandle 7) (LanguageClient 3)
         cold) = Returned tt
  /\ exists (packageJson content json : string) (config : PackageJson)
            (channel : LogOutputChannel)
            (logger l1 l2 d1 d2 d3 d4 d5 d6 : Disposable),
       let sname := name (serverInfo config) in
       let sid := module (serverInfo config) in
       journal s' = journal cold ++
         [ Startup (PathJoin ["/ext"; "package.json"]) (Returned packageJson);
           Startup (ReadFileSync packageJson) (Returned content);
           Startup (JsonParse content) (Returned config);
           Startup (CreateOutputChannel sname) (Returned channel);
           Startup (RegisterLogger channel) (Returned logger);
           Startup (ChannelOnDidChangeLogLevel channel ChannelLevelListener)
                   (Returned l1);
           Startup (EnvOnDidChangeLogLevel EnvLevelListener) (Returned l2);
           Core (Did (TraceLog ("Name: " +:+ sname)) (Returned tt));
           Core (Did (TraceLog ("Module: " +:+ sid)) (Returned tt));
           Startup (JsonStringify {| name := sname; module := sid |})
                   (Returned json);
           Startup (TraceVerbose ("Full Server Info: " +:+ json)) (Returned tt);
           Core (Did (OnDidChangePythonInterpreter InterpreterListener)
                     (Returned d1));
           Core (Did (RegisterCommand (sid +:+ ".showLogs") ShowLogsHandler)
                     (Returned d2));
           Core (Did (OnDidChangeConfiguration ConfigurationListener)
                     (Returned d3));
           Core (Did (RegisterCommand (sid +:+ ".restart") RestartHandler)
                     (Returned d4));
           Core (Did (RegisterCommand "zenml.promptForInterpreter"
                        PromptForInterpreterHandler) (Returned d5));
           Core (Did (RegisterLanguageStatusItem sid sname
                        (sid +:+ ".showLogs")) (Returned d6)) ]
       /\ zen (world s') =
            {| context := ContextHandle 7;
               commandDisposables := [];
               viewDisposables := [];
               lsClient := LanguageClient 3;
               outputChannel := channel;
               serverId := sid;
               serverName := sname;
               viewsAndCommandsSetup := false |}
       /\ subscriptions (world s') = [] ++
            [channelDisposable channel; logger; l1; l2; d1; d2; d3; d4; d5; d6]
       /\ commands (world s') =
            <["zenml.promptForInterpreter" := PromptForInterpreterHandler]>
              (<[sid +:+ ".restart" := RestartHandler]>
                 (<[sid +:+ ".showLogs" := ShowLogsHandler]> ∅))
       /\ immediates (world s') = [] ++ [DeferredInitialization]
       /\ interpreterSelectionInProgress (world s') = false.
Proof.
  split; [reflexivity|].
  apply (@activate_wires_in_source_order office (installed None)
           (ContextHandle 7) (LanguageClient 3) cold).
  reflexivity.
Defined.

(** X14 for the installed extension. *)
Lemma restart_after_activation_installed :
  let s' := snd (@activate office (installed None) (ContextHandle 7)
                   (LanguageClient 3) cold) in
  fst (@activate office (installed None) (ContextHandle 7) (LanguageClient 3)
         cold) = Returned tt
  /\ exists (content : string) (config : PackageJson)
            (channel : LogOutputChannel),
       let sname := name (serverInfo config) in
       let sid := module (serverInfo config) in
       let c := RunServer sid sname channel (LanguageClient 3) in
       In (Startup (JsonParse content) (Returned config)) (journal s')
       /\ In (Startup (CreateOutputChannel sname) (Returned channel))
             (journal s')
       /\ runCommand (sid +:+ ".restart") (world s') =
            (fst (respond c (host (world s'))),
             advance (snd (respond c (host (world s'))))
               [Did c (fst (respond c (host (world s'))))] (world s')).
Proof.
  split; [reflexivity|].
  apply (@restart_after_activation office (installed None)
           (ContextHandle 7) (LanguageClient 3) cold).
  reflexivity.
Defined.

(** X16 for the installation whose [package.json] does not parse. *)
Lemma activate_corrupted :
  let s' := snd (@activate office corrupted (ContextHandle 7)
                   (LanguageClient 3) cold) in
  fst (@loadServerDefaults office corrupted cold) =
    Threw (JsError "Unexpected token")
  /\ fst (@activate office corrupted (ContextHandle 7) (LanguageClient 3) cold)
     = Threw (JsError "Unexpected token")
  /\ @recorded office corrupted _
       (@activate office corrupted (ContextHandle 7) (LanguageClient 3)) cold
     = @recorded office corrupted _ (@loadServerDefaults office corrupted) cold
  /\ zen (world s') =
       setLsClient (LanguageClient 3)
         (setContext (ContextHandle 7) (zen (world cold)))
  /\ subscriptions (world s') = []
  /\ commands (world s') = ∅
  /\ immediates (world s') = [].
Proof.
  split; [reflexivity|].
  apply (@activate_stops_when_package_json_fails office corrupted
           (ContextHandle 7) (LanguageClient 3) cold
           (JsError "Unexpected token")).
  reflexivity.
Defined.

Example log_level_without_client :
  @recorded office (installed None) _
    (@runLogLevelListener office (installed None) EnvLevelListener
       LogLevel.Trace) cold =
    [Startup GetLanguageClient (Returned None)].
Proof. reflexivity. Qed.

Example log_level_with_client :
  @recorded office (installed (Some (ClientHandle 1))) _
    (@runLogLevelListener office (installed (Some (ClientHandle 1)))
       ChannelLevelListener LogLevel.Debug) cold =
    [ Startup GetLanguageClient (Returned (Some (ClientHandle 1)));
      Startup (SetTrace (ClientHandle 1) Trace.Compact) (Returned tt) ].
Proof. reflexivity. Qed.
